(** * labforge: a shallow embedding of the lab orchestration core

    The development follows the Python sources module by module:
    [network.py] (subnet allocator), [config.py] (validation and variable
    interpolation), [compose.py] (manifest generator), [lab_state.py]
    (state store) and [controller.py] (build / destroy sequencing).

    Python exceptions are modelled by the [result] type, dictionaries by
    insertion-ordered association lists, the [self.used] set of the
    allocator by a [gset], and the data directory by a [gmap] from entry
    names to entries. *)

From Stdlib Require Import ZArith Ascii String.
From Equations Require Import Equations.
From stdpp Require Import base tactics option list numbers strings gmap pretty sorting.

Local Open Scope string_scope.
Local Open Scope Z_scope.

(** ** Exceptions and results *)

Inductive exn : Type :=
| ValueError (msg : string)     (* also AddressValueError, NetmaskValueError *)
| NetworkError (msg : string)
| ConfigError (msg : string)
| StateError (msg : string)
| DockerError (msg : string)
| KeyError (key : string)
| TypeError
| AttributeError
| OSError (msg : string)        (* FileNotFoundError, FileExistsError *)
| YAMLError
| NotRenderableError.

Inductive result (A : Type) : Type :=
| Ok (a : A)
| Raise (e : exn).
Arguments Ok {A} a.
Arguments Raise {A} e.

Global Instance result_ret : MRet result := λ A, Ok.
Global Instance result_bind : MBind result := λ A B k r,
  match r with
  | Ok a => k a
  | Raise e => Raise e
  end.

Global Instance result_fmap : FMap result := λ A B f r,
  match r with
  | Ok a => Ok (f a)
  | Raise e => Raise e
  end.

Definition of_option {A : Type} (o : option A) (e : exn) : result A :=
  match o with
  | Some a => Ok a
  | None => Raise e
  end.

Definition is_ok {A : Type} (r : result A) : bool :=
  match r with Ok _ => true | Raise _ => false end.

(** ** Documents

    The values [yaml.safe_load] produces and [yaml.dump] consumes: scalars,
    sequences and mappings.  A mapping is an association list in insertion
    order, as a Python dictionary is; its keys are scalars.  Floating point
    scalars and timestamps are left out. *)

#[warnings="-register-all"]
Inductive value : Type :=
| VNull
| VBool (b : bool)
| VInt (n : Z)
| VStr (s : string)
| VList (l : list value)
| VDict (d : list (value * value)).

Abbreviation dict := (list (value * value)).

(** ** Strings as Python uses them in [ipaddress] *)

Definition is_digit (c : ascii) : bool :=
  (48 <=? nat_of_ascii c)%nat && (nat_of_ascii c <=? 57)%nat.

(** [s.isascii() and s.isdigit()]: non-empty and made of ASCII digits. *)
Definition all_digits (s : string) : bool :=
  match s with
  | EmptyString => false
  | _ => forallb is_digit (list_ascii_of_string s)
  end.

Definition digit_val (c : ascii) : Z := Z.of_nat (nat_of_ascii c) - 48.

(** [int(s, 10)] on a string of digits. *)
Definition int_of_digits (s : string) : Z :=
  fold_left (λ acc c, 10 * acc + digit_val c) (list_ascii_of_string s) 0.

(** [s.split(sep)] for a one-character separator. *)
Fixpoint split_on (sep : ascii) (s : string) : list string :=
  match s with
  | EmptyString => [EmptyString]
  | String c r =>
      if decide (c = sep) then EmptyString :: split_on sep r
      else match split_on sep r with
           | h :: t => String c h :: t
           | [] => [String c EmptyString]
           end
  end.

(** [sep.join(l)]. *)
Fixpoint join (sep : string) (l : list string) : string :=
  match l with
  | [] => ""
  | [x] => x
  | x :: r => x +:+ sep +:+ join sep r
  end.

(** [s.startswith(p)]. *)
Fixpoint startswith (s p : string) : bool :=
  match p, s with
  | EmptyString, _ => true
  | String a p', String b s' => bool_decide (a = b) && startswith s' p'
  | String _ _, EmptyString => false
  end.

(** ** Characters

    A Python [str] is a sequence of Unicode characters.  A [string] here
    holds its UTF-8 encoding: a character is one byte below 128, or a
    leading byte from 192 on followed by the continuation bytes (128 to
    191) that belong to it, at most three. *)

Definition is_ascii (c : ascii) : bool := (nat_of_ascii c <? 128)%nat.

Definition is_continuation (c : ascii) : bool :=
  (128 <=? nat_of_ascii c)%nat && (nat_of_ascii c <? 192)%nat.

(** The number of bytes of the character a byte begins. *)
Definition char_width (c : ascii) : nat :=
  let n := nat_of_ascii c in
  if (n <? 192)%nat then 1%nat
  else if (n <? 224)%nat then 2%nat
  else if (n <? 240)%nat then 3%nat else 4%nat.

(** The bytes left of the character being read, of which at most
    [pending] are still to come, and the characters after it. *)
Fixpoint chars_aux (pending : nat) (s : string) : string * list string :=
  match s with
  | EmptyString => (EmptyString, [])
  | String c r =>
      if (0 <? pending)%nat && is_continuation c
      then let '(t, l) := chars_aux (pending - 1) r in (String c t, l)
      else let '(t, l) := chars_aux (char_width c - 1) r in
           (EmptyString, String c t :: l)
  end.

(** [list(s)]: the characters of a string. *)
Definition chars (s : string) : list string := (chars_aux 0 s).2.

(** ["".join(l)] *)
Definition text (l : list string) : string := foldr String.append EmptyString l.


(** ** network.py *)

Module Network.

(** *** The part of [ipaddress] the allocator relies on *)

Definition ALL_ONES : Z := 2 ^ 32 - 1.
Definition max_prefixlen : Z := 32.

(** [IPv4Address._parse_octet] *)
Definition parse_octet (octet_str : string) : option Z :=
  if negb (all_digits octet_str) then None
  else if (3 <? String.length octet_str)%nat then None
  else if negb (bool_decide (octet_str = "0"))
          && bool_decide (String.get 0 octet_str = Some "0"%char) then None
  else let octet_int := int_of_digits octet_str in
       if 255 <? octet_int then None else Some octet_int.

(** [IPv4Address._ip_int_from_string] *)
Definition ip_int_from_string (ip_str : string) : option Z :=
  if bool_decide (ip_str = "") then None
  else match split_on "." ip_str with
       | [o1; o2; o3; o4] =>
           a ← parse_octet o1; b ← parse_octet o2;
           c ← parse_octet o3; d ← parse_octet o4;
           Some (((a * 256 + b) * 256 + c) * 256 + d)
       | _ => None
       end.

(** [int.bit_length] on a non-negative integer. *)
Definition bit_length (x : Z) : Z :=
  if x =? 0 then 0 else Z.log2 x + 1.

(** [ipaddress._count_righthand_zero_bits] *)
Definition count_righthand_zero_bits (number bits : Z) : Z :=
  if number =? 0 then bits
  else Z.min bits (bit_length (Z.land (Z.lnot number) (number - 1))).

(** [_BaseV4._ip_int_from_prefix] *)
Definition ip_int_from_prefix (prefixlen : Z) : Z :=
  Z.lxor ALL_ONES (Z.shiftr ALL_ONES prefixlen).

(** [_BaseV4._prefix_from_ip_int]; [None] stands for its [ValueError]. *)
Definition prefix_from_ip_int (ip_int : Z) : option Z :=
  let trailing_zeroes := count_righthand_zero_bits ip_int max_prefixlen in
  let prefixlen := max_prefixlen - trailing_zeroes in
  let leading_ones := Z.shiftr ip_int trailing_zeroes in
  let all_ones := Z.shiftl 1 prefixlen - 1 in
  if leading_ones =? all_ones then Some prefixlen else None.

(** [_BaseV4._prefix_from_prefix_string] *)
Definition prefix_from_prefix_string (prefixlen_str : string) : option Z :=
  if negb (all_digits prefixlen_str) then None
  else let prefixlen := int_of_digits prefixlen_str in
       if (0 <=? prefixlen) && (prefixlen <=? max_prefixlen)
       then Some prefixlen else None.

(** [_BaseV4._prefix_from_ip_string]: a dotted netmask, then a hostmask. *)
Definition prefix_from_ip_string (ip_str : string) : option Z :=
  ip_int ← ip_int_from_string ip_str;
  match prefix_from_ip_int ip_int with
  | Some p => Some p
  | None => prefix_from_ip_int (Z.lxor ip_int ALL_ONES)
  end.

(** [IPv4Network._make_netmask] on a string argument: the prefix length. *)
Definition make_netmask (arg : string) : option Z :=
  match prefix_from_prefix_string arg with
  | Some p => Some p
  | None => prefix_from_ip_string arg
  end.

(** An [ipaddress.IPv4Network]: equality and hashing are on the network
    address and the prefix length. *)
Record IPv4Network : Type := mkNet {
  network_address : Z;
  prefixlen : Z
}.

Global Instance IPv4Network_eq_dec : EqDecision IPv4Network.
Proof. solve_decision. Defined.

Global Instance IPv4Network_countable : Countable IPv4Network.
Proof.
  apply (inj_countable' (λ n, (network_address n, prefixlen n))
                        (λ p, mkNet p.1 p.2)).
  by intros [].
Defined.

Definition netmask (net : IPv4Network) : Z :=
  ip_int_from_prefix (prefixlen net).

Definition broadcast_address (net : IPv4Network) : Z :=
  Z.lor (network_address net) (Z.lxor (netmask net) ALL_ONES).

(** [IPv4Network.__init__] with the default [strict=True], given the
    address and an optional mask string. *)
Definition make_network (packed : Z) (plen : Z) : option IPv4Network :=
  if Z.land packed (ip_int_from_prefix plen) =? packed
  then Some (mkNet packed plen) else None.

(** [IPv4Network(s)] for a string [s]; [None] stands for [ValueError]. *)
Definition IPv4Network_of_string (s : string) : option IPv4Network :=
  match split_on "/" s with
  | [addr] =>
      packed ← ip_int_from_string addr;
      make_network packed max_prefixlen
  | [addr; mask] =>
      packed ← ip_int_from_string addr;
      plen ← make_netmask mask;
      make_network packed plen
  | _ => None
  end.

(** [IPv4Network(n)] for an integer [n]: a single-address network. *)
Definition IPv4Network_of_int (n : Z) : option IPv4Network :=
  if (0 <=? n) && (n <=? ALL_ONES) then Some (mkNet n max_prefixlen) else None.

(** [IPv4Network(v)] for a document value.  Booleans are integers in
    Python; [None], sequences and mappings go through [str], which never
    yields four dotted octets. *)
Definition IPv4Network_of_value (v : value) : option IPv4Network :=
  match v with
  | VStr s => IPv4Network_of_string s
  | VInt n => IPv4Network_of_int n
  | VBool b => IPv4Network_of_int (if b then 1 else 0)
  | VNull | VList _ | VDict _ => None
  end.

(** [str(IPv4Address(n))] *)
Definition address_to_string (n : Z) : string :=
  pretty (Z.shiftr n 24) +:+ "." +:+
  pretty (Z.land (Z.shiftr n 16) 255) +:+ "." +:+
  pretty (Z.land (Z.shiftr n 8) 255) +:+ "." +:+
  pretty (Z.land n 255).

(** [str(net)] *)
Definition network_to_string (net : IPv4Network) : string :=
  address_to_string (network_address net) +:+ "/" +:+ pretty (prefixlen net).

(** [ip in net] for an address [ip] *)
Definition contains (net : IPv4Network) (ip : Z) : bool :=
  Z.land ip (netmask net) =? network_address net.

(** [net.subnets(new_prefix=p)] for [p] at least the prefix length of
    [net], in ascending address order. *)
Definition subnets (net : IPv4Network) (new_prefix : Z) : list IPv4Network :=
  let step := Z.shiftl 1 (max_prefixlen - new_prefix) in
  let count := Z.shiftl 1 (new_prefix - prefixlen net) in
  (λ k : Z, mkNet (network_address net + k * step) new_prefix)
    <$> seqZ 0 count.

(** *** The allocator *)

Definition BASE_NETWORK : IPv4Network := mkNet (((172 * 256 + 30) * 256) * 256) 16.
Definition SUBNET_PREFIX : Z := 24.

(** [NetworkAllocator.__init__]: entries that raise [ValueError] are
    passed over. *)
Definition init (used_subnets : list value) : gset IPv4Network :=
  fold_left (λ used s,
               match IPv4Network_of_value s with
               | Some net => used ∪ {[ net ]}
               | None => used
               end) used_subnets ∅.

(** The loop of [allocate] over the remaining candidate subnets. *)
Fixpoint allocate_loop (used : gset IPv4Network) (candidates : list IPv4Network)
  : result (string * gset IPv4Network) :=
  match candidates with
  | [] => Raise (NetworkError "No available subnets in 172.30.0.0/16")
  | subnet :: rest =>
      if network_address subnet =? network_address BASE_NETWORK
      then allocate_loop used rest
      else if bool_decide (subnet ∉ used)
      then Ok (network_to_string subnet, used ∪ {[ subnet ]})
      else allocate_loop used rest
  end.

(** [NetworkAllocator.allocate]: the result and the updated [self.used]. *)
Definition allocate (used : gset IPv4Network) : result (string * gset IPv4Network) :=
  allocate_loop used (subnets BASE_NETWORK SUBNET_PREFIX).

(** [IPv4Address + int]: [None] stands for the [AddressValueError] of an
    address outside 32 bits. *)
Definition address_add (ip : Z) (offset : Z) : option Z :=
  let r := ip + offset in
  if (0 <=? r) && (r <=? ALL_ONES) then Some r else None.

(** The body of [compute_ip] once the subnet is parsed; [subnet] is its
    text, for the message. *)
Definition compute_ip_in (net : IPv4Network) (subnet : string) (offset : Z)
  : result string :=
  ip ← of_option (address_add (network_address net) offset)
                 (ValueError "not a valid IPv4 address");
  if negb (contains net ip)
  then Raise (NetworkError ("IP offset " +:+ pretty offset +:+
                            " is out of range for subnet " +:+ subnet))
  else Ok (address_to_string ip).

(** [NetworkAllocator.compute_ip] *)
Definition compute_ip (subnet : string) (offset : Z) : result string :=
  net ← of_option (IPv4Network_of_string subnet) (ValueError subnet);
  compute_ip_in net subnet offset.

(** [NetworkAllocator.gateway_ip] *)
Definition gateway_ip (subnet : string) : result string :=
  net ← of_option (IPv4Network_of_string subnet) (ValueError subnet);
  ip ← of_option (address_add (network_address net) 1)
                 (ValueError "not a valid IPv4 address");
  Ok (address_to_string ip).

(** The [k]-th /24 block of the pool, 172.30.k.0/24. *)
Definition block (k : Z) : IPv4Network :=
  mkNet (network_address BASE_NETWORK + k * 256) 24.

End Network.

(** ** Python operations on documents *)

(** Equality of dictionary keys: [True == 1] and [False == 0] in Python;
    sequences and mappings are not hashable and never are keys. *)
Definition key_eqb (a b : value) : bool :=
  match a, b with
  | VNull, VNull => true
  | VStr s, VStr t => bool_decide (s = t)
  | VInt n, VInt m => n =? m
  | VBool x, VBool y => bool_decide (x = y)
  | VBool x, VInt n | VInt n, VBool x => n =? (if x then 1 else 0)
  | _, _ => false
  end.

(** [d.get(k)] *)
Fixpoint dict_get (d : dict) (k : value) : option value :=
  match d with
  | [] => None
  | (k', v) :: r => if key_eqb k' k then Some v else dict_get r k
  end.

(** [k in d] *)
Definition dict_has (d : dict) (k : value) : bool :=
  bool_decide (is_Some (dict_get d k)).

(** [d[k] = v]: an existing key keeps its place, a new one goes last. *)
Fixpoint dict_set (d : dict) (k v : value) : dict :=
  match d with
  | [] => [(k, v)]
  | (k', v') :: r =>
      if key_eqb k' k then (k', v) :: r else (k', v') :: dict_set r k v
  end.

(** [d.pop(k, None)], the value dropped. *)
Fixpoint dict_pop (d : dict) (k : value) : dict :=
  match d with
  | [] => []
  | (k', v') :: r => if key_eqb k' k then r else (k', v') :: dict_pop r k
  end.


(** [v == s] for a string literal [s] *)
Definition is_str (v : value) (s : string) : bool :=
  match v with
  | VStr s' => bool_decide (s' = s)
  | _ => false
  end.

(** [p in s] on strings *)
Fixpoint is_substring (p s : string) : bool :=
  startswith s p ||
  match s with
  | EmptyString => false
  | String _ s' => is_substring p s'
  end.

(** [bool(v)] *)
Definition truthy (v : value) : bool :=
  match v with
  | VNull => false
  | VBool b => b
  | VInt n => negb (n =? 0)
  | VStr s => negb (bool_decide (s = ""))
  | VList l => negb (bool_decide (l = []))
  | VDict d => negb (bool_decide (d = []))
  end.

(** [k in v] for a string [k] *)
Definition py_in (k : string) (v : value) : result bool :=
  match v with
  | VDict d => Ok (dict_has d (VStr k))
  | VStr s => Ok (is_substring k s)
  | VList l => Ok (existsb (λ x, is_str x k) l)
  | VNull | VBool _ | VInt _ => Raise TypeError
  end.

(** [v[k]] for a string [k] *)
Definition py_getitem (v : value) (k : string) : result value :=
  match v with
  | VDict d => of_option (dict_get d (VStr k)) (KeyError k)
  | _ => Raise TypeError
  end.

(** [v.get(k, default)] *)
Definition py_get (v : value) (k : string) (dflt : value) : result value :=
  match v with
  | VDict d => Ok (default dflt (dict_get d (VStr k)))
  | _ => Raise AttributeError
  end.

(** [for x in v] *)
Definition py_iter (v : value) : result (list value) :=
  match v with
  | VList l => Ok l
  | VDict d => Ok (fst <$> d)
  | VStr s => Ok (VStr <$> chars s)
  | VNull | VBool _ | VInt _ => Raise TypeError
  end.

(** [hash(v)] succeeds: [v] may be used as a dictionary key. *)
Definition hashable (v : value) : bool :=
  match v with
  | VList _ | VDict _ => false
  | _ => true
  end.

(** ** The world a command runs in *)

(** A file as [yaml.safe_load] sees it: a document, or text it rejects.
    [yaml.dump] followed by [yaml.safe_load] gives the document back, so a
    written file is the document written. *)
Inductive file : Type :=
| YamlFile (doc : value)
| OtherFile.

(** A directory of the data directory, with the two files the program
    keeps there. *)
Record lab_dir : Type := mkLabDir {
  state_yml : option file;
  compose_yml : option file
}.

Inductive entry : Type :=
| EntryFile
| EntryDir (d : lab_dir).

(** What [console.print] receives. *)
Inductive output : Type :=
| Line (text : string)
| Table (title : string) (rows : list (list string)).

(** How a [docker compose] process ends. *)
Inductive docker_outcome : Type :=
| Exit0 (stdout : string)
| ExitNonZero (stderr : string)     (* the standard error, stripped *)
| NotInstalled.

Record world : Type := mkWorld {
  data_dir : option (gmap string entry);  (* [None]: DATA_DIR does not exist *)
  user_files : gmap string file;          (* existing files, by the path given *)
  labs_files : gmap string file;          (* files of LABS_DIR, by name *)
  environ : gmap string string;           (* [os.environ] *)
  console : list output;                  (* printed so far, oldest first *)
  clock : nat;                            (* readings of the clock so far *)
  docker_log : list (list string)         (* [docker] command lines run so far *)
}.

(** What the interpreter, its library and the host provide.  [py_repr] is
    the text [str] gives for a sequence or a mapping; [str_isalnum] is
    [ch.isalnum()] for a character [ch] outside ASCII, as the Unicode
    database of the interpreter has it; [sha256_hexdigest] is
    [hashlib.sha256(s.encode()).hexdigest()]; [DATA_DIR] and [LABS_DIR] are
    the paths of the data and template directories, which depend on where
    the package is installed; [path_resolve] is [Path.resolve]; [utc_now]
    and [time_time] give the text of the n-th reading of the clock as
    [datetime.now(timezone.utc).isoformat()] and [str(time.time())];
    [docker_compose] is the outcome of a command line given those run
    before it. *)
Class Runtime := {
  py_repr : value → string;
  str_isalnum : string → bool;
  sha256_hexdigest : string → string;
  DATA_DIR : string;
  LABS_DIR : string;
  path_resolve : string → string;
  utc_now : nat → string;
  time_time : nat → string;
  docker_compose : list (list string) → list string → docker_outcome
}.

(** [str(v)] *)
Definition py_str `{Runtime} (v : value) : string :=
  match v with
  | VStr s => s
  | VInt n => pretty n
  | VBool true => "True"
  | VBool false => "False"
  | VNull => "None"
  | VList _ | VDict _ => py_repr v
  end.

(** Commands: a result and the world left behind, also when an exception
    is raised. *)
Definition M (A : Type) : Type := world → result A * world.

Global Instance M_ret : MRet M := λ A a w, (Ok a, w).
Global Instance M_bind : MBind M := λ A B k m w,
  match m w with
  | (Ok a, w') => k a w'
  | (Raise e, w') => (Raise e, w')
  end.

Definition raise {A : Type} (e : exn) : M A := λ w, (Raise e, w).
Definition lift {A : Type} (r : result A) : M A := λ w, (r, w).
Definition get_world : M world := λ w, (Ok w, w).
Definition put_world (w : world) : M unit := λ _, (Ok (), w).

(** [try: body except <handled>: handler] *)
Definition try_except {A : Type} (body : M A) (handled : exn → bool)
    (handler : exn → M A) : M A := λ w,
  match body w with
  | (Ok a, w') => (Ok a, w')
  | (Raise e, w') => if handled e then handler e w' else (Raise e, w')
  end.

(** [console.print(o)] *)
Definition console_print (o : output) : M unit := λ w,
  (Ok (), mkWorld (data_dir w) (user_files w) (labs_files w) (environ w)
                  (console w ++ [o]) (clock w) (docker_log w)).

Definition set_data_dir (d : option (gmap string entry)) : M unit := λ w,
  (Ok (), mkWorld d (user_files w) (labs_files w) (environ w)
                  (console w) (clock w) (docker_log w)).

(** One reading of the clock: its index. *)
Definition tick : M nat := λ w,
  (Ok (clock w), mkWorld (data_dir w) (user_files w) (labs_files w) (environ w)
                         (console w) (S (clock w)) (docker_log w)).

(** ** config.py *)

Module Config.



(** A character of [[a-zA-Z0-9_]]. *)
Definition is_ascii_word (c : ascii) : bool :=
  let n := nat_of_ascii c in
  ((48 <=? n) && (n <=? 57) || (65 <=? n) && (n <=? 90)
   || (97 <=? n) && (n <=? 122) || (n =? 95))%nat.

(** The longest run at the head of [l] of items that satisfy [p], and
    the rest. *)
Fixpoint span {A : Type} (p : A → bool) (l : list A) : list A * list A :=
  match l with
  | [] => ([], [])
  | x :: r => if p x then let '(w, rest) := span p r in (x :: w, rest)
              else ([], l)
  end.

(** A value together with the equation that it is that value. *)
Definition inspect {A : Type} (a : A) : {b : A | a = b} := exist _ a eq_refl.

Lemma string_length_app (a b : string) :
  String.length (a +:+ b) = (String.length a + String.length b)%nat.
Proof.
  induction a as [|c a IH]; [done|].
  change (String c a +:+ b) with (String c (a +:+ b)). simpl. by rewrite IH.
Qed.

Lemma text_chars_aux (pending : nat) (s : string) :
  (chars_aux pending s).1 +:+ text (chars_aux pending s).2 = s.
Proof.
  revert pending. induction s as [|c r IH]; intros pending; [done|].
  simpl. destruct ((0 <? pending)%nat && is_continuation c).
  - specialize (IH (pending - 1)%nat). destruct (chars_aux (pending - 1) r) as [t l].
    simpl in *. change (String c t +:+ text l) with (String c (t +:+ text l)).
    by rewrite IH.
  - specialize (IH (char_width c - 1)%nat).
    destruct (chars_aux (char_width c - 1) r) as [t l]. simpl in *.
    change ("" +:+ (String c t +:+ text l)) with (String c (t +:+ text l)).
    by rewrite IH.
Qed.

Lemma text_chars (s : string) : text (chars s) = s.
Proof.
  pose proof (text_chars_aux 0 s) as Hs. unfold chars.
  destruct s as [|c r]; [done|]. simpl in *.
  by destruct (chars_aux (char_width c - 1) r).
Qed.

Lemma span_text {A : Type} (p : A → bool) (l : list A) :
  ((span p l).1 ++ (span p l).2)%list = l.
Proof.
  induction l as [|x r IH]; simpl; [done|].
  destruct (p x); [|done]. destruct (span p r); simpl in *. by rewrite IH.
Qed.

Lemma text_app (l1 l2 : list string) :
  text (l1 ++ l2)%list = text l1 +:+ text l2.
Proof.
  induction l1 as [|x l1 IH]; simpl; [done|].
  rewrite IH. clear IH. induction x as [|c x IHx]; [done|].
  change (String c x +:+ text l1 +:+ text l2)
    with (String c (x +:+ text l1 +:+ text l2)).
  change ((String c x +:+ text l1) +:+ text l2)
    with (String c ((x +:+ text l1) +:+ text l2)).
  by rewrite IHx.
Qed.

Section defs.
Context `{Runtime}.

(** A character [\w] matches in a [str] pattern: a letter, a digit or the
    underscore of ASCII, or a character outside ASCII that is
    alphanumeric. *)
Definition is_word_char (ch : string) : bool :=
  match ch with
  | String c EmptyString => if is_ascii c then is_ascii_word c else str_isalnum ch
  | _ => str_isalnum ch
  end.

(** The longest run of word characters at the head of [s], and the rest. *)
Definition take_word (s : string) : string * string :=
  let '(w, rest) := span is_word_char (chars s) in (text w, text rest).

(** A match of the pattern [\$\{(\w+)\}] at the head of [s]: group 1
    and what follows the match. *)
Definition match_placeholder (s : string) : option (string * string) :=
  match s with
  | String "$" (String "{" r) =>
      match take_word r with
      | (String c w, String "}" rest) => Some (String c w, rest)
      | _ => None
      end
  | _ => None
  end.

Lemma take_word_text (s : string) : (take_word s).1 +:+ (take_word s).2 = s.
Proof.
  unfold take_word. pose proof (span_text is_word_char (chars s)) as Hs.
  destruct (span is_word_char (chars s)) as [w rest]. simpl in *.
  by rewrite <-text_app, Hs, text_chars.
Qed.

Lemma take_word_length (s : string) :
  (String.length (take_word s).2 ≤ String.length s)%nat.
Proof.
  rewrite <-(take_word_text s) at 2. rewrite string_length_app. lia.
Qed.

Lemma match_placeholder_length (s key rest : string) :
  match_placeholder s = Some (key, rest) →
  (String.length rest < String.length s)%nat.
Proof.
  unfold match_placeholder. intros Hm.
  repeat case_match; simplify_eq/=.
  match goal with
  | E : take_word ?r = _ |- _ => pose proof (take_word_length r) as Hl; rewrite E in Hl
  end.
  simpl in Hl. lia.
Qed.





(** The loop of [validate_config] over [enumerate(config["services"])]. *)
Fixpoint validate_services (i : nat) (services : list value) : result unit :=
  match services with
  | [] => Ok ()
  | svc :: rest =>
      has_name ← py_in "name" svc;
      if negb has_name
      then Raise (ConfigError ("Service " +:+ pretty i +:+
                               " missing required field: 'name'"))
      else
      has_image ← py_in "image" svc;
      if negb has_image
      then name ← py_get svc "name" (VInt (Z.of_nat i));
           Raise (ConfigError ("Service '" +:+ py_str name +:+
                               "' missing required field: 'image'"))
      else
      has_offset ← py_in "ip_offset" svc;
      if negb has_offset
      then name ← py_getitem svc "name";
           Raise (ConfigError ("Service '" +:+ py_str name +:+
                               "' missing required field: 'ip_offset'"))
      else validate_services (S i) rest
  end.

(** [validate_config] *)
Definition validate_config (config : dict) : result unit :=
  if negb (dict_has config (VStr "name"))
  then Raise (ConfigError "Config missing required field: 'name'")
  else match dict_get config (VStr "services") with
       | None => Raise (ConfigError "Config must define at least one service")
       | Some services =>
           if negb (truthy services)
           then Raise (ConfigError "Config must define at least one service")
           else items ← py_iter services; validate_services 0 items
       end.

Section interpolation.
Variable lookup : dict.
Variable env : gmap string string.

(** [_sub]: the text that replaces a match whose group 1 is [key]. *)
Definition _sub (key : string) : string :=
  match dict_get lookup (VStr key) with
  | Some v => py_str v
  | None =>
      match env !! key with
      | Some env_val => env_val
      | None => "${" +:+ key +:+ "}"
      end
  end.

(** [re.sub(r"\$\{(\w+)\}", _sub, s)]: matches are found from left to
    right and do not overlap; the replacement text is not scanned again. *)
Equations? re_sub (s : string) : string by wf (String.length s) lt :=
  re_sub EmptyString := EmptyString;
  re_sub (String c r) with inspect (match_placeholder (String c r)) := {
    | exist _ (Some (key, rest)) Hm := _sub key +:+ re_sub rest;
    | exist _ None _ := String c (re_sub r) }.
Proof.
  - exact (match_placeholder_length (String c r) key rest Hm).
  - simpl. lia.
Qed.

(** [_replace] *)
Fixpoint _replace (obj : value) : value :=
  match obj with
  | VStr s => VStr (re_sub s)
  | VDict d => VDict (map (λ '(k, v), (k, _replace v)) d)
  | VList l => VList (map _replace l)
  | VNull | VBool _ | VInt _ => obj
  end.

End interpolation.

(** [interpolate_variables], given [os.environ] *)
Definition interpolate_variables (env : gmap string string) (config : dict)
  : result dict :=
  match default (VDict []) (dict_get config (VStr "settings")) with
  | VDict settings =>
      Ok (map (λ '(k, v), (k, _replace settings env v)) config)
  | _ => Raise TypeError
  end.

End defs.
End Config.

(** ** compose.py *)

Module Compose.
Section defs.
Context `{Runtime}.

(** [NetworkAllocator.compute_ip] on the values a document holds: the
    subnet goes through [IPv4Network], the offset is added to an address,
    which only an integer allows. *)
Definition compute_ip (subnet offset : value) : result string :=
  net ← of_option (Network.IPv4Network_of_value subnet) (ValueError (py_str subnet));
  match offset with
  | VInt n => Network.compute_ip_in net (py_str subnet) n
  | VBool b => Network.compute_ip_in net (py_str subnet) (if b then 1 else 0)
  | _ => Raise TypeError
  end.

(** [if key in svc: service[key] = svc[key]] *)
Definition copy_field (svc : value) (key : string) (service : dict) : result dict :=
  present ← py_in key svc;
  if present : bool
  then v ← py_getitem svc key; Ok (dict_set service (VStr key) v)
  else Ok service.

(** The [deploy] block of a service with [resources]. *)
Definition build_deploy (res : value) : result value :=
  has_memory ← py_in "memory" res;
  limits ← (if has_memory : bool
            then memory ← py_getitem res "memory"; Ok [(VStr "memory", memory)]
            else Ok []);
  has_cpus ← py_in "cpus" res;
  limits ← (if has_cpus : bool
            then cpus ← py_getitem res "cpus";
                 Ok (dict_set limits (VStr "cpus") (VStr (py_str cpus)))
            else Ok limits);
  Ok (VDict [(VStr "resources", VDict [(VStr "limits", VDict limits)])]).

(** [ComposeGenerator._build_service] *)
Definition _build_service (svc : value) (subnet : string) (network_name : string)
  : result dict :=
  image ← py_getitem svc "image";
  let service := [(VStr "image", image)] in
  name ← py_getitem svc "name";
  let service := dict_set service (VStr "container_name") name in
  service ← copy_field svc "hostname" service;
  ip_offset ← py_getitem svc "ip_offset";
  ip ← compute_ip (VStr subnet) ip_offset;
  let service := dict_set service (VStr "networks")
        (VDict [(VStr network_name, VDict [(VStr "ipv4_address", VStr ip)])]) in
  platform ← py_get svc "platform" VNull;
  let service :=
    if is_str platform "windows-docker"
    then dict_set (dict_set (dict_set service
           (VStr "devices") (VList [VStr "/dev/kvm"]))
           (VStr "cap_add") (VList [VStr "NET_ADMIN"]))
           (VStr "stop_grace_period") (VStr "120s")
    else service in
  has_resources ← py_in "resources" svc;
  service ← (if has_resources : bool
             then res ← py_getitem svc "resources";
                  deploy ← build_deploy res;
                  Ok (dict_set service (VStr "deploy") deploy)
             else Ok service);
  service ← copy_field svc "ports" service;
  service ← copy_field svc "environment" service;
  service ← copy_field svc "volumes" service;
  service ← copy_field svc "healthcheck" service;
  service ← copy_field svc "depends_on" service;
  service ← copy_field svc "command" service;
  service ← copy_field svc "restart" service;
  service ← copy_field svc "privileged" service;
  has_cap_add ← py_in "cap_add" svc;
  service ← (if has_cap_add : bool
             then platform ← py_get svc "platform" VNull;
                  if negb (is_str platform "windows-docker")
                  then cap_add ← py_getitem svc "cap_add";
                       Ok (dict_set service (VStr "cap_add") cap_add)
                  else Ok service
             else Ok service);
  has_network_mode ← py_in "network_mode" svc;
  if has_network_mode : bool
  then network_mode ← py_getitem svc "network_mode";
       Ok (dict_pop (dict_set service (VStr "network_mode") network_mode)
                    (VStr "networks"))
  else Ok service.

(** The loop of [generate] over the services: the [services] mapping of
    the manifest so far. *)
Fixpoint build_services (items : list value) (subnet network_name : string)
    (services : dict) : result dict :=
  match items with
  | [] => Ok services
  | svc :: rest =>
      service_def ← _build_service svc subnet network_name;
      name ← py_getitem svc "name";
      if hashable name
      then build_services rest subnet network_name
             (dict_set services name (VDict service_def))
      else Raise TypeError
  end.

(** [ComposeGenerator.generate] *)
Definition generate (config : dict) (subnet : string) (lab_id : string)
  : result value :=
  let network_name := "labforge-" +:+ lab_id in
  gateway ← Network.gateway_ip subnet;
  let networks :=
    VDict [(VStr network_name,
            VDict [(VStr "driver", VStr "bridge");
                   (VStr "ipam",
                    VDict [(VStr "config",
                            VList [VDict [(VStr "subnet", VStr subnet);
                                          (VStr "gateway", VStr gateway)]])])])] in
  let volumes_config := default (VDict []) (dict_get config (VStr "volumes")) in
  services_v ← of_option (dict_get config (VStr "services")) (KeyError "services");
  items ← py_iter services_v;
  services ← build_services items subnet network_name [];
  let compose := [(VStr "version", VStr "3.8");
                  (VStr "services", VDict services);
                  (VStr "networks", networks)] in
  Ok (VDict (if truthy volumes_config
             then dict_set compose (VStr "volumes") volumes_config
             else compose)).

End defs.
End Compose.

(** ** lab_state.py *)

Module LabState.

(** The order [sorted] puts directory entries in: by name. *)
Definition name_le (a b : string * entry) : Prop := String.le a.1 b.1.

Global Instance name_le_dec : RelDecision name_le.
Proof. intros a b. unfold name_le. apply _. Defined.

Section defs.
Context `{Runtime}.

(** [str(DATA_DIR / lab_id)] *)
Definition lab_dir_path (lab_id : string) : string :=
  DATA_DIR +:+ "/" +:+ lab_id.

(** [str(state.compose_file)] *)
Definition compose_file_path (lab_id : string) : string :=
  lab_dir_path lab_id +:+ "/docker-compose.yml".

Definition lookup_entry (w : world) (lab_id : string) : option entry :=
  entries ← data_dir w; entries !! lab_id.

(** [self.lab_dir.mkdir(parents=True, exist_ok=True)] *)
Definition mkdir (lab_id : string) : M unit := λ w,
  let entries := default ∅ (data_dir w) in
  match entries !! lab_id with
  | Some (EntryDir _) => (Ok (), w)
  | Some EntryFile => (Raise (OSError (lab_dir_path lab_id)), w)
  | None => set_data_dir (Some (<[lab_id := EntryDir (mkLabDir None None)]> entries)) w
  end.

(** [LabState._write]: [open(self.state_file, "w")] needs the directory. *)
Definition _write (lab_id : string) (state : value) : M unit := λ w,
  match data_dir w with
  | Some entries =>
      match entries !! lab_id with
      | Some (EntryDir d) =>
          set_data_dir
            (Some (<[lab_id := EntryDir (mkLabDir (Some (YamlFile state)) (compose_yml d))]>
                     entries)) w
      | _ => (Raise (OSError (lab_dir_path lab_id +:+ "/state.yml")), w)
      end
  | None => (Raise (OSError (lab_dir_path lab_id +:+ "/state.yml")), w)
  end.


(** One [datetime.now(timezone.utc).isoformat()] *)
Definition now_iso : M string := n ← tick; mret (utc_now n).


(** The entry of the [services] list of a record for one service. *)
Definition svc_info (svc : value) : result value :=
  name ← py_getitem svc "name";
  image ← py_getitem svc "image";
  ip_offset ← py_getitem svc "ip_offset";
  platform ← py_get svc "platform" (VStr "linux");
  let info := [(VStr "name", name); (VStr "image", image);
               (VStr "ip_offset", ip_offset); (VStr "platform", platform)] in
  info ← Compose.copy_field svc "access" info;
  info ← Compose.copy_field svc "ports" info;
  Ok (VDict info).

(** [LabState.create] *)
Definition create (lab_id : string) (template : string) (config : dict)
    (subnet : string) : M value :=
  _ ← mkdir lab_id;
  items ← lift (py_iter (default (VList []) (dict_get config (VStr "services"))));
  services ← lift (mapM (λ svc, svc_info svc) items);
  created_at ← now_iso;
  updated_at ← now_iso;
  let state := VDict [
    (VStr "lab_id", VStr lab_id);
    (VStr "template", VStr template);
    (VStr "name", default (VStr template) (dict_get config (VStr "name")));
    (VStr "description", default (VStr "") (dict_get config (VStr "description")));
    (VStr "status", VStr "building");
    (VStr "subnet", VStr subnet);
    (VStr "services", VList services);
    (VStr "created_at", VStr created_at);
    (VStr "updated_at", VStr updated_at)] in
  _ ← _write lab_id state;
  mret state.

(** [LabState.load] *)
Definition load (lab_id : string) : M value := λ w,
  match lookup_entry w lab_id with
  | Some (EntryDir d) =>
      match state_yml d with
      | Some (YamlFile state) => (Ok state, w)
      | Some OtherFile => (Raise YAMLError, w)
      | None => (Raise (StateError ("Lab '" +:+ lab_id +:+ "' not found")), w)
      end
  | _ => (Raise (StateError ("Lab '" +:+ lab_id +:+ "' not found")), w)
  end.

(** [LabState.update_status] *)
Definition update_status (lab_id : string) (status : string) : M unit :=
  state ← load lab_id;
  match state with
  | VDict d =>
      let d := dict_set d (VStr "status") (VStr status) in
      updated_at ← now_iso;
      _write lab_id (VDict (dict_set d (VStr "updated_at") (VStr updated_at)))
  | _ => raise TypeError
  end.

(** [LabState.delete] *)
Definition delete (lab_id : string) : M unit := λ w,
  match data_dir w with
  | Some entries =>
      match entries !! lab_id with
      | Some (EntryDir _) => set_data_dir (Some (base.delete lab_id entries)) w
      | Some EntryFile => (Raise (OSError (lab_dir_path lab_id)), w)
      | None => (Ok (), w)
      end
  | None => (Ok (), w)
  end.

(** [state.compose_file.exists()] *)
Definition compose_file_exists (lab_id : string) (w : world) : bool :=
  match lookup_entry w lab_id with
  | Some (EntryDir d) => bool_decide (is_Some (compose_yml d))
  | _ => false
  end.

(** The record [list_all] keeps for a directory entry, if any. *)
Definition readable_state (e : entry) : option value :=
  match e with
  | EntryDir d =>
      match state_yml d with
      | Some (YamlFile (VDict state)) =>
          if truthy (VDict state) then Some (VDict state) else None
      | _ => None
      end
  | EntryFile => None
  end.

(** [LabState.list_all] *)
Definition list_all (w : world) : list value :=
  match data_dir w with
  | None => []
  | Some entries =>
      omap (λ ne, readable_state ne.2) (merge_sort name_le (map_to_list entries))
  end.

(** Whether a directory entry counts for [resolve_id]. *)
Definition is_lab (partial_id : string) (ne : string * entry) : bool :=
  match ne.2 with
  | EntryDir d => startswith ne.1 partial_id && bool_decide (is_Some (state_yml d))
  | EntryFile => false
  end.

(** [LabState.resolve_id] *)
Definition resolve_id (partial_id : string) (w : world) : result string :=
  match data_dir w with
  | None => Raise (StateError "No labs found")
  | Some entries =>
      let matches := fst <$> filter (λ ne, is_lab partial_id ne) (map_to_list entries) in
      match matches with
      | [] => Raise (StateError ("No lab found matching '" +:+ partial_id +:+ "'"))
      | [m] => Ok m
      | _ => Raise (StateError ("Ambiguous lab ID '" +:+ partial_id +:+
                                "'. Matches: " +:+ join ", " matches))
      end
  end.

(** The contribution of one listed record to [used_subnets]. *)
Definition used_subnet (state : value) : option value :=
  match state with
  | VDict d =>
      if negb (is_str (default VNull (dict_get d (VStr "status"))) "destroyed")
         && dict_has d (VStr "subnet")
      then dict_get d (VStr "subnet") else None
  | _ => None
  end.

(** [LabState.used_subnets] *)
Definition used_subnets (w : world) : list value :=
  omap used_subnet (list_all w).

End defs.
End LabState.

(** ** docker_manager.py *)

Module DockerManager.
Section defs.
Context `{Runtime}.

Definition newline : string := String (ascii_of_nat 10) EmptyString.

(** [DockerManager._base_cmd] *)
Definition _base_cmd (compose_file project_name : string) : list string :=
  ["docker"; "compose"; "-f"; compose_file; "-p"; project_name].

(** [subprocess.run(cmd, ...)]: the command line is logged and the host
    decides its outcome. *)
Definition subprocess_run (cmd : list string) : M docker_outcome := λ w,
  (Ok (docker_compose (docker_log w) cmd),
   mkWorld (data_dir w) (user_files w) (labs_files w) (environ w)
           (console w) (clock w) (docker_log w ++ [cmd])).

(** [DockerManager._run] with [check=True]; without [capture] the
    standard error is not read. *)
Definition _run (compose_file project_name : string) (args : list string)
    (capture : bool) : M string :=
  let cmd := (_base_cmd compose_file project_name ++ args)%list in
  outcome ← subprocess_run cmd;
  match outcome with
  | Exit0 stdout => mret stdout
  | ExitNonZero stderr =>
      raise (DockerError ("Command failed: " +:+ join " " cmd +:+ newline +:+
                          (if capture then stderr else "")))
  | NotInstalled =>
      raise (DockerError ("Docker is not installed or not in PATH. " +:+
                          "Install Docker: https://docs.docker.com/get-docker/"))
  end.


(** [DockerManager.down] *)
Definition down (compose_file project_name : string) (volumes : bool) : M unit :=
  _ ← _run compose_file project_name
         ("down" :: if volumes then ["-v"] else []) false;
  mret ().


End defs.
End DockerManager.

(** ** controller.py *)

Module Controller.
Section defs.
Context `{Runtime}.

Definition is_DockerError (e : exn) : bool :=
  match e with DockerError _ => true | _ => false end.


(** [str(e)] for the exceptions the controller prints *)
Definition exn_message (e : exn) : string :=
  match e with
  | ValueError m | NetworkError m | ConfigError m | StateError m
  | DockerError m | OSError m => m
  | KeyError k => "'" +:+ k +:+ "'"
  | TypeError | AttributeError | YAMLError | NotRenderableError => ""
  end.














(** [LabController.destroy] *)
Definition destroy (lab_id : string) (volumes force : bool) : M unit :=
  w ← get_world;
  lab_id ← lift (LabState.resolve_id lab_id w);
  lab_data ← LabState.load lab_id;
  status ← lift (py_getitem lab_data "status");
  if is_str status "destroyed" && negb force
  then console_print (Line ("Lab " +:+ lab_id +:+
                            " is already destroyed. Use --force to clean up files."))
  else
    _ ← console_print (Line ("[bold]Destroying lab:[/bold] " +:+ lab_id));
    w ← get_world;
    _ ← (if LabState.compose_file_exists lab_id w
         then try_except
                (DockerManager.down (LabState.compose_file_path lab_id)
                                    ("labforge-" +:+ lab_id) volumes)
                is_DockerError
                (λ e, if negb force then raise e
                      else console_print
                             (Line ("[yellow]Warning:[/yellow] " +:+ exn_message e)))
         else mret ());
    _ ← LabState.update_status lab_id "destroyed";
    _ ← LabState.delete lab_id;
    console_print (Line ("[bold green]Lab " +:+ lab_id +:+ " destroyed.[/bold green]")).

End defs.
End Controller.

(** ** Notions the statements about the allocator use *)

Module NetworkSpec.
Import Network.

(** A network as [IPv4Network.__init__] builds it. *)
Definition valid (net : IPv4Network) : Prop :=
  0 ≤ network_address net < 2 ^ 32 ∧ 0 ≤ prefixlen net ≤ 32 ∧
  Z.land (network_address net) (netmask net) = network_address net.

(** What makes the loop pass over a candidate. *)
Definition skipped (used : gset IPv4Network) (net : IPv4Network) : Prop :=
  network_address net = network_address BASE_NETWORK ∨ net ∈ used.

(** The blocks [allocate] may hand out: every /24 of the pool but the
    reserved first one. *)
Definition allocatable : list IPv4Network :=
  filter (λ net, network_address net ≠ network_address BASE_NETWORK)
         (subnets BASE_NETWORK SUBNET_PREFIX).

(** A data directory with one running lab whose record has the subnet
    field [subnet]. *)
Definition one_lab_world (subnet : string) : world :=
  mkWorld
    (Some {[ "lab-1a2b3c4d" :=
               EntryDir (mkLabDir
                 (Some (YamlFile (VDict [(VStr "lab_id", VStr "lab-1a2b3c4d");
                                         (VStr "status", VStr "running");
                                         (VStr "subnet", VStr subnet)])))
                 None) ]})
    ∅ ∅ ∅ [] 0 [].

End NetworkSpec.

(** ** Notions the statements about the manifest use *)

Module ComposeSpec.

(** A dictionary whose keys are strings, none of them twice. *)
Inductive str_dict : dict → Prop :=
| str_dict_nil : str_dict []
| str_dict_cons (s : string) (v : value) (d : dict) :
    dict_get d (VStr s) = None → str_dict d → str_dict ((VStr s, v) :: d).

(** The three entries of a service definition the claims follow: the
    network attachment, [network_mode] and [cap_add]. *)
Definition tracked (service : dict) (nets : value) (cap : option value) : Prop :=
  str_dict service ∧
  dict_get service (VStr "networks") = Some nets ∧
  dict_get service (VStr "network_mode") = None ∧
  dict_get service (VStr "cap_add") = cap.

Definition untracked (key : string) : Prop :=
  key ≠ "networks" ∧ key ≠ "network_mode" ∧ key ≠ "cap_add".

(** The per-lab network attachment of a service at address [ip]. *)
Definition attachment (network_name ip : string) : value :=
  VDict [(VStr network_name, VDict [(VStr "ipv4_address", VStr ip)])].

(** What the definition [service] of the declared service [svc] holds of
    [network_mode], the network attachment and [cap_add]: never both a
    [network_mode] and an attachment; with a declared [network_mode], that
    [network_mode] and no attachment; without one, the attachment at the
    computed address and no [network_mode]; on the platform
    [windows-docker] the capability [NET_ADMIN] alone, whatever the
    service declares; on any other platform the declared [cap_add]. *)
Definition honours `{Runtime} (subnet network_name : string) (svc service : dict) : Prop :=
  ¬ (is_Some (dict_get service (VStr "network_mode")) ∧
     is_Some (dict_get service (VStr "networks"))) ∧
  (∀ nm, dict_get svc (VStr "network_mode") = Some nm →
     dict_get service (VStr "network_mode") = Some nm ∧
     dict_get service (VStr "networks") = None) ∧
  (dict_get svc (VStr "network_mode") = None →
     dict_get service (VStr "network_mode") = None ∧
     ∃ off ip, dict_get svc (VStr "ip_offset") = Some off ∧
               Compose.compute_ip (VStr subnet) off = Ok ip ∧
               dict_get service (VStr "networks") = Some (attachment network_name ip)) ∧
  (dict_get svc (VStr "platform") = Some (VStr "windows-docker") →
     dict_get service (VStr "cap_add") = Some (VList [VStr "NET_ADMIN"])) ∧
  (is_str (default VNull (dict_get svc (VStr "platform"))) "windows-docker" = false →
     dict_get service (VStr "cap_add") = dict_get svc (VStr "cap_add")).

End ComposeSpec.

(** ** Notions the statements about the state store use *)

Module LabStateSpec.

(** [name] is the directory of a lab: a directory of the data directory
    that holds a record. *)
Definition has_record (w : world) (name : string) : Prop :=
  ∃ entries d, data_dir w = Some entries ∧
               entries !! name = Some (EntryDir d) ∧ is_Some (state_yml d).

(** [name] is a lab directory whose name starts with [partial_id]. *)
Definition matching (w : world) (partial_id name : string) : Prop :=
  has_record w name ∧ startswith name partial_id = true.

(** The names [resolve_id] collects. *)
Definition matches (partial_id : string) (entries : gmap string entry) : list string :=
  fst <$> filter (λ ne, LabState.is_lab partial_id ne) (map_to_list entries).

(** The message of the error for an ambiguous identifier. *)
Definition ambiguous_message (partial_id msg : string) : Prop :=
  startswith msg ("Ambiguous lab ID '" +:+ partial_id +:+ "'. Matches: ") = true.

(** The messages of the error for an identifier no lab matches. *)
Definition not_found_message (partial_id msg : string) : Prop :=
  msg = "No lab found matching '" +:+ partial_id +:+ "'" ∨ msg = "No labs found".

(** The fields a record keeps of a service. *)
Definition summary_keys : list value :=
  [VStr "name"; VStr "image"; VStr "ip_offset"; VStr "platform";
   VStr "access"; VStr "ports"].

(** [info] is the summary of the declared service [svc]: its name, image
    and offset, its platform or "linux" when it declares none, its access
    entries and ports when it declares them, and nothing else. *)
Definition summarises (svc info : value) : Prop :=
  ∃ d i, svc = VDict d ∧ info = VDict i ∧
    is_Some (dict_get d (VStr "name")) ∧
    dict_get i (VStr "name") = dict_get d (VStr "name") ∧
    dict_get i (VStr "image") = dict_get d (VStr "image") ∧
    dict_get i (VStr "ip_offset") = dict_get d (VStr "ip_offset") ∧
    dict_get i (VStr "platform")
    = Some (default (VStr "linux") (dict_get d (VStr "platform"))) ∧
    dict_get i (VStr "access") = dict_get d (VStr "access") ∧
    dict_get i (VStr "ports") = dict_get d (VStr "ports") ∧
    ∀ k, is_Some (dict_get i k) → k ∈ summary_keys.

(** A record as [create] leaves it, with a given status. *)
Definition record (lab_id status subnet : string) : value :=
  VDict [(VStr "lab_id", VStr lab_id);
         (VStr "template", VStr "demo");
         (VStr "name", VStr "demo");
         (VStr "description", VStr "");
         (VStr "status", VStr status);
         (VStr "subnet", VStr subnet);
         (VStr "services", VList []);
         (VStr "created_at", VStr "2024-05-01T10:00:00+00:00");
         (VStr "updated_at", VStr "2024-05-01T10:00:01+00:00")].

(** A world whose data directory holds the given entries and nothing
    else has happened in. *)
Definition world_of (entries : gmap string entry) : world :=
  mkWorld (Some entries) ∅ ∅ ∅ [] 0 [].

(** The directory of [lab_id] holds a record that agrees with [created]
    on every field but the status and the time of the last update. *)
Definition record_kept (lab_id : string) (created : dict) (w : world) : Prop :=
  ∃ entries d rec,
    data_dir w = Some entries ∧ entries !! lab_id = Some (EntryDir d) ∧
    state_yml d = Some (YamlFile (VDict rec)) ∧
    ∀ k, k ≠ "status" → k ≠ "updated_at" →
         dict_get rec (VStr k) = dict_get created (VStr k).

(** A command leaves the record of [lab_id] in place, whether it returns
    or raises. *)
Definition preserves {A : Type} (lab_id : string) (created : dict) (c : M A) : Prop :=
  ∀ w r w', c w = (r, w') → record_kept lab_id created w → record_kept lab_id created w'.

(** The world [w] with one more line on the console. *)
Definition printed (w : world) (text : string) : world :=
  mkWorld (data_dir w) (user_files w) (labs_files w) (environ w)
          (console w ++ [Line text]) (clock w) (docker_log w).

(** A data directory with a record left in status [destroyed], and a
    directory without a record. *)
Definition leftovers : world :=
  world_of {[ "old-5e6f7a8b" := EntryDir (mkLabDir
                (Some (YamlFile (record "old-5e6f7a8b" "destroyed" "172.30.1.0/24")))
                (Some (YamlFile (VDict []))));
              "tmp-00000000" := EntryDir (mkLabDir None (Some (YamlFile (VDict [])))) ]}.

(** The labs "abc-111" and "abc-222", both running. *)
Definition two_labs : world :=
  world_of {[ "abc-111" := EntryDir (mkLabDir
                (Some (YamlFile (record "abc-111" "running" "172.30.1.0/24"))) None);
              "abc-222" := EntryDir (mkLabDir
                (Some (YamlFile (record "abc-222" "running" "172.30.2.0/24"))) None) ]}.

End LabStateSpec.

(** ** Closed examples *)

Module Examples.

(** The letter e with an acute accent, in UTF-8. *)
Definition e_acute : string :=
  String (ascii_of_nat 195) (String (ascii_of_nat 169) EmptyString).

(** A runtime for closed examples; the only character outside ASCII the
    examples hold is a letter. *)
Definition example_runtime : Runtime := {|
  py_repr := λ _, "[...]";
  str_isalnum := λ ch, bool_decide (ch = e_acute);
  sha256_hexdigest := λ _, "9f86d081884c7d659a2feaa0c55ad015a3bf4f1b2b0b822cd15d6c15b0f00a08";
  DATA_DIR := "/opt/labforge/data";
  LABS_DIR := "/opt/labforge/labs";
  path_resolve := λ p, "/home/operator/" +:+ p;
  utc_now := λ n, "2024-05-01T10:00:0" +:+ pretty n +:+ "+00:00";
  time_time := λ n, "1714557600." +:+ pretty n;
  docker_compose := λ _ _, Exit0 ""
|}.

(** A Windows guest on the host network that asks for [SYS_ADMIN], and a
    plain service. *)
Definition example_config : dict :=
  [(VStr "name", VStr "malware-lab");
   (VStr "services", VList [
      VDict [(VStr "name", VStr "win10");
             (VStr "image", VStr "dockurr/windows");
             (VStr "ip_offset", VInt 20);
             (VStr "platform", VStr "windows-docker");
             (VStr "cap_add", VList [VStr "SYS_ADMIN"]);
             (VStr "network_mode", VStr "host")];
      VDict [(VStr "name", VStr "victim");
             (VStr "image", VStr "ubuntu:22.04");
             (VStr "ip_offset", VInt 10)]])].

Definition example_manifest : value :=
  VDict [(VStr "version", VStr "3.8");
         (VStr "services", VDict [
            (VStr "win10", VDict [
               (VStr "image", VStr "dockurr/windows");
               (VStr "container_name", VStr "win10");
               (VStr "devices", VList [VStr "/dev/kvm"]);
               (VStr "cap_add", VList [VStr "NET_ADMIN"]);
               (VStr "stop_grace_period", VStr "120s");
               (VStr "network_mode", VStr "host")]);
            (VStr "victim", VDict [
               (VStr "image", VStr "ubuntu:22.04");
               (VStr "container_name", VStr "victim");
               (VStr "networks", VDict [
                  (VStr "labforge-mal-9f86d081",
                   VDict [(VStr "ipv4_address", VStr "172.30.1.10")])])])]);
         (VStr "networks", VDict [
            (VStr "labforge-mal-9f86d081", VDict [
               (VStr "driver", VStr "bridge");
               (VStr "ipam", VDict [
                  (VStr "config", VList [
                     VDict [(VStr "subnet", VStr "172.30.1.0/24");
                            (VStr "gateway", VStr "172.30.1.1")]])])])])].

(** A template the validation lets through in which two services have
    the same name; only the first declares a [network_mode]. *)
Definition twin_config : dict :=
  [(VStr "name", VStr "twins");
   (VStr "services", VList [
      VDict [(VStr "name", VStr "node");
             (VStr "image", VStr "alpine:3");
             (VStr "ip_offset", VInt 10);
             (VStr "network_mode", VStr "host")];
      VDict [(VStr "name", VStr "node");
             (VStr "image", VStr "debian:12");
             (VStr "ip_offset", VInt 11)]])].

(** The [services] mapping of the example manifest. *)
Definition example_manifest_services : dict :=
  match example_manifest with
  | VDict manifest => match dict_get manifest (VStr "services") with
                      | Some (VDict services) => services
                      | _ => []
                      end
  | _ => []
  end.

(** The template of the scenario: one service, no platform given. *)
Definition victim_config : dict :=
  [(VStr "name", VStr "malware-lab");
   (VStr "services", VList [
      VDict [(VStr "name", VStr "victim");
             (VStr "image", VStr "ubuntu:22.04");
             (VStr "ip_offset", VInt 10)]])].

(** A world with an existing, empty data directory. *)
Definition empty_world : world := mkWorld (Some ∅) ∅ ∅ ∅ [] 0 [].





(** A template with two settings, one of them named by a letter outside
    ASCII, and placeholders at several depths. *)
Definition example_template : dict :=
  [(VStr "name", VStr "demo");
   (VStr "description", VStr ("caf" +:+ e_acute +:+ " ${" +:+ e_acute +:+ "}"));
   (VStr "settings", VDict [(VStr "password", VStr "x1"); (VStr e_acute, VStr "x2")]);
   (VStr "services", VList [
      VDict [(VStr "name", VStr "db");
             (VStr "environment",
              VDict [(VStr "DB_PASS", VStr "${password}");
                     (VStr "DB_URL", VStr "db://root:${password}@${host}/${unset}")])]])].

Definition example_environ : gmap string string := {[ "host" := "10.0.0.5" ]}.

End Examples.

(** ** Notions the statements about interpolation use *)

Module ConfigSpec.
Import Config.

(** A non-empty run of word characters: what [\w+] matches in full. *)
Definition identifier `{Runtime} (key : string) : Prop :=
  key ≠ "" ∧ Forall (λ ch, is_word_char ch = true) (chars key).

(** [s] is empty or starts with an ASCII character that is not a word
    character. *)
Definition stops_word (s : string) : Prop :=
  match s with
  | EmptyString => True
  | String c _ => is_ascii c = true ∧ is_ascii_word c = false
  end.

(** A step into a document: an index of a sequence or a key of a mapping. *)
Inductive step : Type :=
| Index (i : nat)
| Key (k : value).

(** The value a path of steps leads to. *)
Fixpoint value_at (path : list step) (v : value) : option value :=
  match path with
  | [] => Some v
  | Index i :: p =>
      match v with
      | VList l => l !! i ≫= value_at p
      | _ => None
      end
  | Key k :: p =>
      match v with
      | VDict d => dict_get d k ≫= value_at p
      | _ => None
      end
  end.

End ConfigSpec.

(** ** Facts on strings *)

Lemma string_app_cons (x : ascii) (a b : string) :
  String x a +:+ b = String x (a +:+ b).
Proof. reflexivity. Qed.

Lemma string_app_nil_l (a : string) : "" +:+ a = a.
Proof. reflexivity. Qed.

Lemma string_app_assoc (a b c : string) : (a +:+ b) +:+ c = a +:+ (b +:+ c).
Proof.
  induction a as [|x a IH]; [done|]. rewrite !string_app_cons. by f_equal.
Qed.

Lemma string_app_nil_r (a : string) : a +:+ "" = a.
Proof. induction a as [|x a IH]; [done|]. rewrite string_app_cons. by f_equal. Qed.


Module NetworkFacts.
Import Network NetworkSpec.

Lemma ALL_ONES_ones : ALL_ONES = Z.ones 32.
Proof. reflexivity. Qed.

Lemma shiftr_ones (p : Z) : 0 ≤ p ≤ 32 → Z.shiftr (Z.ones 32) p = Z.ones (32 - p).
Proof.
  intros Hp. apply Z.bits_inj'. intros n Hn.
  rewrite Z.shiftr_spec by done.
  rewrite !Z.testbit_ones_nonneg by lia.
  destruct (Z.ltb_spec (n + p) 32), (Z.ltb_spec n (32 - p)); done || lia.
Qed.

Lemma testbit_high (x n : Z) : 0 ≤ x < 2 ^ 32 → 32 ≤ n → Z.testbit x n = false.
Proof.
  intros Hx Hn.
  by apply (proj1 (Z.bounded_iff_bits_nonneg 32 x ltac:(lia) ltac:(lia))); [lia|].
Qed.

(** Masking with the netmask of a prefix clears the host bits. *)
Lemma land_netmask (x p : Z) :
  0 ≤ x < 2 ^ 32 → 0 ≤ p ≤ 32 →
  Z.land x (ip_int_from_prefix p) = x - x `mod` 2 ^ (32 - p).
Proof.
  intros Hx Hp. unfold ip_int_from_prefix.
  rewrite ALL_ONES_ones, shiftr_ones by done.
  assert (x - x `mod` 2 ^ (32 - p) = (x `div` 2 ^ (32 - p)) * 2 ^ (32 - p)) as ->.
  { assert (0 < 2 ^ (32 - p)) by (apply Z.pow_pos_nonneg; lia).
    pose proof (Z.div_mod x (2 ^ (32 - p)) ltac:(lia)). lia. }
  apply Z.bits_inj'. intros n Hn.
  rewrite Z.land_spec, Z.lxor_spec, !Z.testbit_ones_nonneg by lia.
  rewrite Z.mul_pow2_bits by lia.
  destruct (Z.ltb_spec n (32 - p)).
  - rewrite (Z.testbit_neg_r _ (n - (32 - p))) by lia.
    destruct (Z.ltb_spec n 32); [|lia]. by rewrite andb_false_r.
  - rewrite Z.div_pow2_bits by lia.
    replace (n - (32 - p) + (32 - p)) with n by lia.
    destruct (Z.ltb_spec n 32); simpl.
    + by rewrite andb_true_r.
    + rewrite andb_false_r. symmetry. by apply testbit_high.
Qed.

Lemma int_of_digits_nonneg (l : list ascii) (acc : Z) :
  forallb is_digit l = true → 0 ≤ acc →
  0 ≤ fold_left (λ acc c, 10 * acc + digit_val c) l acc.
Proof.
  revert acc. induction l as [|c l IH]; intros acc Hall Hacc; simpl in *; [done|].
  apply andb_true_iff in Hall as [Hc Hl]. apply IH; [done|].
  unfold is_digit in Hc. apply andb_true_iff in Hc as [H1 H2].
  apply Nat.leb_le in H1. unfold digit_val. lia.
Qed.

Lemma parse_octet_range (s : string) (n : Z) :
  parse_octet s = Some n → 0 ≤ n ≤ 255.
Proof.
  unfold parse_octet. intros H.
  destruct (all_digits s) eqn:Hd; simpl in H; [|done].
  repeat case_match; simplify_eq.
  split; [|lia].
  destruct s; [done|]. by apply int_of_digits_nonneg.
Qed.

Lemma ip_int_from_string_range (s : string) (n : Z) :
  ip_int_from_string s = Some n → 0 ≤ n < 2 ^ 32.
Proof.
  unfold ip_int_from_string. intros H.
  repeat case_match; simplify_eq.
  repeat match goal with
  | H : _ ≫= _ = Some _ |- _ => apply bind_Some in H as (? & ? & H)
  | H : parse_octet _ = Some _ |- _ => apply parse_octet_range in H
  end.
  simplify_eq. lia.
Qed.

Lemma bit_length_nonneg (x : Z) : 0 ≤ bit_length x.
Proof. unfold bit_length. case_match; [done|]. pose proof (Z.log2_nonneg x). lia. Qed.

Lemma prefix_from_ip_int_range (x p : Z) :
  prefix_from_ip_int x = Some p → 0 ≤ p ≤ 32.
Proof.
  unfold prefix_from_ip_int, count_righthand_zero_bits, max_prefixlen.
  intros H. repeat case_match; simplify_eq; [lia|].
  match goal with |- context [bit_length ?y] => pose proof (bit_length_nonneg y) end.
  lia.
Qed.

Lemma make_netmask_range (m : string) (p : Z) :
  make_netmask m = Some p → 0 ≤ p ≤ 32.
Proof.
  unfold make_netmask, prefix_from_prefix_string, prefix_from_ip_string, max_prefixlen.
  intros H. repeat case_match; simplify_eq; try lia.
  - apply bind_Some in H as (? & ? & H).
    repeat case_match; simplify_eq; by eapply prefix_from_ip_int_range.
  - apply bind_Some in H as (? & ? & H).
    repeat case_match; simplify_eq; by eapply prefix_from_ip_int_range.
Qed.

Lemma make_network_valid (packed p : Z) (net : IPv4Network) :
  0 ≤ packed < 2 ^ 32 → 0 ≤ p ≤ 32 →
  make_network packed p = Some net → net = mkNet packed p ∧ valid net.
Proof.
  unfold make_network. intros ? ? H. case_match eqn:E; simplify_eq.
  apply Z.eqb_eq in E. done.
Qed.

Lemma IPv4Network_of_string_valid (s : string) (net : IPv4Network) :
  IPv4Network_of_string s = Some net → valid net.
Proof.
  unfold IPv4Network_of_string. intros H.
  repeat case_match; simplify_eq.
  - apply bind_Some in H as (packed & Hp & H).
    apply ip_int_from_string_range in Hp.
    by apply make_network_valid in H as [_ ?].
  - apply bind_Some in H as (packed & Hp & H).
    apply bind_Some in H as (p & Hm & H).
    apply ip_int_from_string_range in Hp. apply make_netmask_range in Hm.
    by apply make_network_valid in H as [_ ?].
Qed.

Lemma valid_aligned (net : IPv4Network) :
  valid net → network_address net `mod` 2 ^ (32 - prefixlen net) = 0.
Proof.
  intros (Ha & Hp & Hm). unfold netmask in Hm.
  rewrite land_netmask in Hm by done. lia.
Qed.

Lemma broadcast_address_eq (net : IPv4Network) :
  valid net →
  broadcast_address net = network_address net + 2 ^ (32 - prefixlen net) - 1.
Proof.
  intros Hv. pose proof (valid_aligned net Hv) as Hal.
  destruct Hv as (Ha & Hp & Hm).
  unfold broadcast_address, netmask, ip_int_from_prefix.
  rewrite ALL_ONES_ones, shiftr_ones by done.
  rewrite (Z.lxor_comm (Z.ones 32)), Z.lxor_assoc, Z.lxor_nilpotent, Z.lxor_0_r.
  assert (Z.land (network_address net) (Z.ones (32 - prefixlen net)) = 0) as Hl.
  { rewrite Z.land_ones by lia. done. }
  rewrite <-Z.lxor_lor, <-Z.add_nocarry_lxor by done.
  rewrite Z.ones_equiv. lia.
Qed.

(** [ip in net] is the range test between the network and the broadcast
    addresses. *)
Lemma contains_range (net : IPv4Network) (ip : Z) :
  valid net → 0 ≤ ip < 2 ^ 32 →
  contains net ip = true ↔ network_address net ≤ ip ≤ broadcast_address net.
Proof.
  intros Hv Hip. rewrite broadcast_address_eq by done.
  pose proof (valid_aligned net Hv) as Hal.
  destruct Hv as (Ha & Hp & Hm).
  unfold contains, netmask. rewrite land_netmask by done.
  set (h := 32 - prefixlen net) in *.
  assert (0 < 2 ^ h) by (apply Z.pow_pos_nonneg; lia).
  pose proof (Z.mod_pos_bound ip (2 ^ h) ltac:(lia)).
  rewrite Z.eqb_eq. split.
  - lia.
  - intros Hr.
    apply Z.mod_divide in Hal as [q Hq]; [|lia].
    assert (ip `mod` 2 ^ h = ip - network_address net) as ->; [|lia].
    replace ip with ((ip - network_address net) + q * 2 ^ h) at 1 by lia.
    rewrite Z.mod_add by lia. apply Z.mod_small. lia.
Qed.

(** *** The allocation loop *)

Lemma allocate_loop_cons (used : gset IPv4Network) (c : IPv4Network) (l : list IPv4Network) :
  allocate_loop used (c :: l) =
  if network_address c =? network_address BASE_NETWORK then allocate_loop used l
  else if bool_decide (c ∉ used) then Ok (network_to_string c, used ∪ {[ c ]})
  else allocate_loop used l.
Proof. done. Qed.

Lemma allocate_loop_Ok (used used' : gset IPv4Network) (l : list IPv4Network) (s : string) :
  allocate_loop used l = Ok (s, used') →
  ∃ (i : nat) (net : IPv4Network),
    l !! i = Some net ∧ ¬ skipped used net ∧
    s = network_to_string net ∧ used' = used ∪ {[ net ]} ∧
    ∀ (j : nat) (net' : IPv4Network), (j < i)%nat → l !! j = Some net' → skipped used net'.
Proof.
  induction l as [|c l IH]; [done|]. rewrite allocate_loop_cons.
  destruct (Z.eqb_spec (network_address c) (network_address BASE_NETWORK)) as [Hb|Hb].
  - intros (i & net & Hi & Hrest)%IH. exists (S i), net. split; [done|].
    destruct Hrest as (? & ? & ? & Hpre). repeat split; try done.
    intros [|j] net' Hj Hl; simplify_eq/=; [by left|]. apply (Hpre j); [lia|done].
  - case_bool_decide as Hu.
    + intros [= <- <-]. exists 0%nat, c. repeat split; try done.
      * intros [?|?]; done.
      * intros j ? ?. lia.
    + intros (i & net & Hi & Hrest)%IH. exists (S i), net. split; [done|].
      destruct Hrest as (? & ? & ? & Hpre). repeat split; try done.
      intros [|j] net' Hj Hl; simplify_eq/=.
      * by right.
      * apply (Hpre j); [lia|done].
Qed.

Lemma allocate_loop_Raise (used : gset IPv4Network) (l : list IPv4Network) (e : exn) :
  allocate_loop used l = Raise e →
  e = NetworkError "No available subnets in 172.30.0.0/16" ∧
  ∀ net, net ∈ l → skipped used net.
Proof.
  induction l as [|c l IH]; [|rewrite allocate_loop_cons].
  - intros [= <-]. split; [done|]. intros ? ?%elem_of_nil. done.
  - destruct (Z.eqb_spec (network_address c) (network_address BASE_NETWORK)) as [Hb|Hb].
    + intros [-> Hall]%IH. split; [done|].
      intros net [->|?]%elem_of_cons; [by left|by apply Hall].
    + case_bool_decide as Hu; [done|].
      intros [-> Hall]%IH. split; [done|].
      intros net [->|?]%elem_of_cons; [|by apply Hall].
      by right.
Qed.

Lemma allocate_loop_all_skipped (used : gset IPv4Network) (l : list IPv4Network) :
  (∀ net, net ∈ l → skipped used net) →
  allocate_loop used l = Raise (NetworkError "No available subnets in 172.30.0.0/16").
Proof.
  induction l as [|c l IH]; [done|]. rewrite allocate_loop_cons. intros Hall.
  destruct (Z.eqb_spec (network_address c) (network_address BASE_NETWORK)) as [Hb|Hb].
  - apply IH. intros ? ?. apply Hall. by right.
  - case_bool_decide as Hu.
    + destruct (Hall c) as [?|?]; [by left|done..].
    + apply IH. intros ? ?. apply Hall. by right.
Qed.

Lemma subnets_pool : subnets BASE_NETWORK SUBNET_PREFIX = block <$> seqZ 0 256.
Proof. reflexivity. Qed.

Lemma pool_lookup (i : nat) (net : IPv4Network) :
  subnets BASE_NETWORK SUBNET_PREFIX !! i = Some net →
  net = block (Z.of_nat i) ∧ Z.of_nat i < 256.
Proof.
  rewrite subnets_pool, list_lookup_fmap.
  intros (k & Hk & ->)%fmap_Some. apply lookup_seqZ in Hk as [-> ?]. done.
Qed.

Lemma pool_lookup_block (k : Z) :
  0 ≤ k < 256 → subnets BASE_NETWORK SUBNET_PREFIX !! Z.to_nat k = Some (block k).
Proof.
  intros Hk. rewrite subnets_pool, list_lookup_fmap, lookup_seqZ_lt by lia.
  simpl. f_equal. f_equal. lia.
Qed.

Lemma elem_of_pool (net : IPv4Network) :
  net ∈ subnets BASE_NETWORK SUBNET_PREFIX ↔ ∃ k, 0 ≤ k < 256 ∧ net = block k.
Proof.
  rewrite subnets_pool, list_elem_of_fmap. setoid_rewrite elem_of_seqZ.
  split; intros (k & ? & ?); exists k; split; done || lia.
Qed.

Lemma block_address (k : Z) : network_address (block k) = network_address BASE_NETWORK + k * 256.
Proof. done. Qed.

Lemma block_inj (j k : Z) : block j = block k → j = k.
Proof. unfold block. intros [= ?]. lia. Qed.

Lemma skipped_block (used : gset IPv4Network) (k : Z) :
  skipped used (block k) ↔ k = 0 ∨ block k ∈ used.
Proof. unfold skipped. rewrite block_address. split; intros [?|?]; (by right) || (left; lia). Qed.

(** Every pool block prints and parses back to itself. *)
Lemma block_string_roundtrip (k : Z) :
  0 ≤ k < 256 → IPv4Network_of_string (network_to_string (block k)) = Some (block k).
Proof.
  intros Hk.
  assert (Forall (λ k, IPv4Network_of_string (network_to_string (block k)) = Some (block k))
                 (seqZ 0 256)) as Hall.
  { apply (bool_decide_unpack _). vm_compute. exact I. }
  rewrite Forall_forall in Hall. apply Hall, elem_of_seqZ. lia.
Qed.

(** *** The constructor *)

Lemma elem_of_init_fold (l : list value) (acc : gset IPv4Network) (net : IPv4Network) :
  net ∈ fold_left (λ used s,
                     match IPv4Network_of_value s with
                     | Some net => used ∪ {[ net ]}
                     | None => used
                     end) l acc
  ↔ net ∈ acc ∨ ∃ v, v ∈ l ∧ IPv4Network_of_value v = Some net.
Proof.
  revert acc. induction l as [|v l IH]; intros acc; simpl.
  - split; [by left|]. intros [?|(v & ?%elem_of_nil & _)]; done.
  - rewrite IH. destruct (IPv4Network_of_value v) as [n|] eqn:Hv.
    + rewrite elem_of_union, elem_of_singleton. split.
      * intros [[?| ->]|(v' & ? & ?)]; [by left| |].
        -- right. exists v. split; [by left|done].
        -- right. exists v'. split; [by right|done].
      * intros [?|(v' & [->|?]%elem_of_cons & Hv')]; [by left; left| |].
        -- left. right. congruence.
        -- right. by exists v'.
    + split.
      * intros [?|(v' & ? & ?)]; [by left|]. right. exists v'. split; [by right|done].
      * intros [?|(v' & [->|?]%elem_of_cons & Hv')]; [by left|congruence|].
        right. by exists v'.
Qed.

Lemma elem_of_init (l : list value) (net : IPv4Network) :
  net ∈ init l ↔ ∃ v, v ∈ l ∧ IPv4Network_of_value v = Some net.
Proof.
  unfold init. rewrite elem_of_init_fold. split; [|by right].
  intros [?%not_elem_of_empty|?]; done.
Qed.
(** What [allocate] returns is a block of the pool past the first. *)
Lemma allocate_Ok_block (u u' : gset IPv4Network) (t : string) :
  allocate u = Ok (t, u') →
  ∃ k, 1 ≤ k ≤ 255 ∧ t = network_to_string (block k) ∧
       (block k ∉ u) ∧ u' = u ∪ {[ block k ]} ∧
       IPv4Network_of_string t = Some (block k).
Proof.
  unfold allocate. intros Halloc.
  apply allocate_loop_Ok in Halloc as (i & net & Hi & Hns & Ht & Hu & _).
  apply pool_lookup in Hi as [Hnet Hlt].
  rewrite Hnet in Hns, Ht, Hu. clear Hnet net.
  rewrite skipped_block in Hns.
  exists (Z.of_nat i).
  split; [lia|]. split; [exact Ht|]. split; [tauto|]. split; [exact Hu|].
  rewrite Ht. apply block_string_roundtrip. lia.
Qed.



End NetworkFacts.

(** ** Facts on dictionaries and results *)

Import ComposeSpec.

Lemma bind_Ok {A B : Type} (r : result A) (k : A → result B) (b : B) :
  r ≫= k = Ok b → ∃ a, r = Ok a ∧ k a = Ok b.
Proof. destruct r as [a|e]; simpl; [|done]. intros ?. by exists a. Qed.

Lemma key_eqb_str_l (s : string) (k : value) :
  key_eqb (VStr s) k = true ↔ k = VStr s.
Proof.
  destruct k; simpl; try (split; done).
  rewrite bool_decide_eq_true. split; congruence.
Qed.

Lemma key_eqb_str_r (s : string) (k : value) :
  key_eqb k (VStr s) = true ↔ k = VStr s.
Proof.
  destruct k; simpl; try (split; done).
  rewrite bool_decide_eq_true. split; congruence.
Qed.

Lemma dict_get_set (d : dict) (s : string) (v k : value) :
  dict_get (dict_set d (VStr s) v) k
  = if key_eqb (VStr s) k then Some v else dict_get d k.
Proof.
  induction d as [|[k' v'] d IH]; cbn [dict_get dict_set].
  - by destruct (key_eqb (VStr s) k).
  - destruct (key_eqb k' (VStr s)) eqn:Hk; cbn [dict_get].
    + apply key_eqb_str_r in Hk as ->. by destruct (key_eqb (VStr s) k).
    + rewrite IH. destruct (key_eqb k' k) eqn:Hk'; [|done].
      destruct (key_eqb (VStr s) k) eqn:Hs; [|done].
      apply key_eqb_str_l in Hs as ->. congruence.
Qed.

Lemma dict_get_set_eq (d : dict) (s : string) (v : value) :
  dict_get (dict_set d (VStr s) v) (VStr s) = Some v.
Proof. rewrite dict_get_set. simpl. by rewrite bool_decide_true. Qed.

Lemma dict_get_set_ne (d : dict) (s t : string) (v : value) :
  s ≠ t → dict_get (dict_set d (VStr s) v) (VStr t) = dict_get d (VStr t).
Proof. intros ?. rewrite dict_get_set. simpl. by rewrite bool_decide_false. Qed.

Lemma key_eqb_trans_str (a k : value) (s : string) :
  key_eqb a (VStr s) = true → key_eqb a k = key_eqb (VStr s) k.
Proof. by intros ->%key_eqb_str_r. Qed.

Lemma dict_get_pop_ne (d : dict) (s t : string) :
  s ≠ t → dict_get (dict_pop d (VStr s)) (VStr t) = dict_get d (VStr t).
Proof.
  intros Hne. induction d as [|[k' v'] d IH]; simpl; [done|].
  destruct (key_eqb k' (VStr s)) eqn:Hk; simpl.
  - apply key_eqb_str_r in Hk as ->. simpl. by rewrite bool_decide_false.
  - by rewrite IH.
Qed.

Lemma str_dict_set (d : dict) (s : string) (v : value) :
  str_dict d → str_dict (dict_set d (VStr s) v).
Proof.
  induction 1 as [|t v' d Hnone Hd IH]; simpl.
  - by repeat constructor.
  - case_bool_decide as Hts; simplify_eq.
    + by constructor.
    + constructor; [|done]. rewrite dict_get_set_ne; done.
Qed.

Lemma str_dict_get_pop (d : dict) (s : string) :
  str_dict d → dict_get (dict_pop d (VStr s)) (VStr s) = None.
Proof.
  induction 1 as [|t v' d Hnone Hd IH]; simpl; [done|].
  case_bool_decide as Hts; simplify_eq; [done|].
  simpl. by rewrite bool_decide_false.
Qed.

Lemma dict_get_set_Some (d : dict) (s : string) (v k : value) :
  is_Some (dict_get (dict_set d (VStr s) v) k) → k = VStr s ∨ is_Some (dict_get d k).
Proof.
  rewrite dict_get_set. destruct (key_eqb (VStr s) k) eqn:E; [|by right].
  apply key_eqb_str_l in E. by left.
Qed.

Lemma dict_get_cons_Some (d : dict) (s : string) (v k : value) :
  is_Some (dict_get ((VStr s, v) :: d) k) → k = VStr s ∨ is_Some (dict_get d k).
Proof.
  cbn [dict_get]. destruct (key_eqb (VStr s) k) eqn:E; [|by right].
  apply key_eqb_str_l in E. by left.
Qed.

Module ComposeFacts.
Import Compose ComposeSpec.
Section facts.
Context `{Runtime}.

Lemma py_getitem_Ok (svc : value) (k : string) (v : value) :
  py_getitem svc k = Ok v → ∃ d, svc = VDict d ∧ dict_get d (VStr k) = Some v.
Proof.
  destruct svc; simpl; try done.
  destruct (dict_get d (VStr k)) eqn:E; simpl; [|done].
  intros [= ->]. by eexists.
Qed.

Lemma copy_field_dict_eq (d : dict) (key : string) (service : dict) :
  copy_field (VDict d) key service
  = Ok (match dict_get d (VStr key) with
        | Some v => dict_set service (VStr key) v
        | None => service
        end).
Proof.
  unfold copy_field, py_in, py_getitem, dict_has.
  destruct (dict_get d (VStr key)) as [v|] eqn:E.
  - by rewrite bool_decide_true by eauto.
  - by rewrite bool_decide_false by (by intros [? ?]).
Qed.

Lemma copy_field_dict (d : dict) (key : string) (service service' : dict) :
  copy_field (VDict d) key service = Ok service' →
  service' = match dict_get d (VStr key) with
             | Some v => dict_set service (VStr key) v
             | None => service
             end.
Proof.
  unfold copy_field, py_in, py_getitem, dict_has.
  destruct (dict_get d (VStr key)) as [v|] eqn:E.
  - rewrite bool_decide_true by eauto. by intros [= <-].
  - rewrite bool_decide_false by (by intros [? ?]). by intros [= <-].
Qed.

Lemma copy_field_get_ne (d : dict) (key k : string) (service service' : dict) :
  copy_field (VDict d) key service = Ok service' → key ≠ k →
  dict_get service' (VStr k) = dict_get service (VStr k).
Proof.
  intros ->%copy_field_dict ?. destruct (dict_get d (VStr key)); [|done].
  by rewrite dict_get_set_ne.
Qed.

Lemma copy_field_str_dict (d : dict) (key : string) (service service' : dict) :
  copy_field (VDict d) key service = Ok service' →
  str_dict service → str_dict service'.
Proof.
  intros ->%copy_field_dict ?. destruct (dict_get d (VStr key)); [|done].
  by apply str_dict_set.
Qed.

Lemma py_in_dict (d : dict) (k : string) (b : bool) :
  py_in k (VDict d) = Ok b →
  if b then is_Some (dict_get d (VStr k)) else dict_get d (VStr k) = None.
Proof.
  unfold py_in, dict_has. intros [= <-]. case_bool_decide as Hd; [done|].
  destruct (dict_get d (VStr k)); [|done]. destruct Hd. eauto.
Qed.

Lemma tracked_set (service : dict) (nets : value) (cap : option value)
    (key : string) (v : value) :
  untracked key → tracked service nets cap →
  tracked (dict_set service (VStr key) v) nets cap.
Proof.
  intros (? & ? & ?) (? & ? & ? & ?). split; [by apply str_dict_set|].
  by rewrite !dict_get_set_ne.
Qed.

Lemma tracked_set_cap_add (service : dict) (nets : value) (cap : option value)
    (v : value) :
  tracked service nets cap →
  tracked (dict_set service (VStr "cap_add") v) nets (Some v).
Proof.
  intros (? & ? & ? & ?). split; [by apply str_dict_set|].
  by rewrite dict_get_set_eq, !dict_get_set_ne.
Qed.

Lemma tracked_copy_field (d : dict) (key : string) (service service' : dict)
    (nets : value) (cap : option value) :
  copy_field (VDict d) key service = Ok service' →
  untracked key → tracked service nets cap → tracked service' nets cap.
Proof.
  intros ->%copy_field_dict ? ?. destruct (dict_get d (VStr key)); [|done].
  by apply tracked_set.
Qed.

Lemma key_eqb_refl (k : value) : hashable k = true → key_eqb k k = true.
Proof.
  destruct k; simpl; try done; intros _.
  - by apply bool_decide_eq_true.
  - apply Z.eqb_refl.
  - by apply bool_decide_eq_true.
Qed.

Lemma elem_of_dict_set (d : dict) (k v k0 v0 : value) :
  hashable k = true → (k0, v0) ∈ dict_set d k v →
  (k0, v0) ∈ d ∨ (v0 = v ∧ key_eqb k0 k = true).
Proof.
  intros Hk. induction d as [|[k' v'] d IH]; cbn [dict_set].
  - intros [= -> ->]%list_elem_of_singleton. right. split; [done|by apply key_eqb_refl].
  - destruct (key_eqb k' k) eqn:E.
    + intros [[= -> ->]|?]%elem_of_cons; [by right|]. left. by right.
    + intros [[= -> ->]|[?|?]%IH]%elem_of_cons; [by left; left|by left; right|by right].
Qed.

(** Every entry of the [services] mapping is the definition built for a
    declared service of that name. *)
Lemma build_services_spec (items : list value) (subnet network_name : string)
    (services0 services : dict) :
  build_services items subnet network_name services0 = Ok services →
  ∀ name def, (name, def) ∈ services →
    (name, def) ∈ services0 ∨
    ∃ svc service declared,
      svc ∈ items ∧ py_getitem svc "name" = Ok declared ∧
      key_eqb name declared = true ∧
      _build_service svc subnet network_name = Ok service ∧ def = VDict service.
Proof.
  revert services0. induction items as [|svc items IH]; intros services0; cbn [build_services].
  - intros [= <-] name def ?. by left.
  - intros Hb. apply bind_Ok in Hb as (service & Hsvc & Hb).
    apply bind_Ok in Hb as (declared & Hname & Hb).
    destruct (hashable declared) eqn:Hh; [|done].
    intros name def Hin.
    destruct (IH _ Hb name def Hin) as [Hold|(svc' & service' & decl' & ? & ?)].
    + apply elem_of_dict_set in Hold as [?|[-> ?]]; [by left| |done].
      right. exists svc, service, declared. split; [by left|done].
    + right. exists svc', service', decl'. split; [by right|done].
Qed.

(** Keys that are equal are equal to the same keys. *)
Lemma key_eqb_true_eq (a b c : value) :
  key_eqb a b = true → key_eqb a c = key_eqb b c.
Proof.
  destruct a as [|x|n|s|?|?], b as [|y|m|t|?|?]; simpl; try done; intros Hab.
  - apply bool_decide_eq_true in Hab as ->. done.
  - apply Z.eqb_eq in Hab as ->. destruct c as [|z|k|?|?|?]; simpl; try done.
    + destruct x, z; done.
    + destruct x; by rewrite Z.eqb_sym.
  - apply Z.eqb_eq in Hab as ->. destruct c as [|z|k|?|?|?]; simpl; try done.
    + destruct y, z; done.
    + destruct y; by rewrite Z.eqb_sym.
  - apply Z.eqb_eq in Hab as ->. done.
  - apply bool_decide_eq_true in Hab as ->. done.
Qed.

Lemma dict_get_set_same (d : dict) (k v : value) :
  hashable k = true → dict_get (dict_set d k v) k = Some v.
Proof.
  intros Hk. induction d as [|[k' v'] d IH]; cbn [dict_set dict_get].
  - by rewrite key_eqb_refl.
  - destruct (key_eqb k' k) eqn:E; cbn [dict_get]; by rewrite E.
Qed.

Lemma dict_get_set_other (d : dict) (k v k2 : value) :
  key_eqb k k2 = false → dict_get (dict_set d k v) k2 = dict_get d k2.
Proof.
  intros Hk. induction d as [|[k' v'] d IH]; cbn [dict_set dict_get].
  - by rewrite Hk.
  - destruct (key_eqb k' k) eqn:E; cbn [dict_get].
    + by rewrite (key_eqb_true_eq _ _ _ E), Hk.
    + by rewrite IH.
Qed.

(** Services of other names leave the entry of a name as it is. *)
Lemma build_services_keeps (items : list value) (subnet network_name : string)
    (services0 services : dict) (n : value) :
  build_services items subnet network_name services0 = Ok services →
  (∀ svc n', svc ∈ items → py_getitem svc "name" = Ok n' → key_eqb n' n = false) →
  dict_get services n = dict_get services0 n.
Proof.
  revert services0. induction items as [|svc items IH]; intros services0; cbn [build_services].
  - by intros [= <-] _.
  - intros Hb Hother. apply bind_Ok in Hb as (service & Hsvc & Hb).
    apply bind_Ok in Hb as (declared & Hname & Hb).
    destruct (hashable declared) eqn:Hh; [|done].
    rewrite (IH _ Hb); [|intros svc' n' ?; apply Hother; by right].
    apply dict_get_set_other. apply (Hother svc); [by left|done].
Qed.

(** Every declared service is built, and its definition is the entry of
    its name unless a later service has the same name. *)
Lemma build_services_lookup (items : list value) (subnet network_name : string)
    (services0 services : dict) (i : nat) (svc : value) :
  build_services items subnet network_name services0 = Ok services →
  items !! i = Some svc →
  ∃ service n,
    _build_service svc subnet network_name = Ok service ∧
    py_getitem svc "name" = Ok n ∧
    ((∀ j svc' n', (i < j)%nat → items !! j = Some svc' →
                   py_getitem svc' "name" = Ok n' → key_eqb n' n = false) →
     dict_get services n = Some (VDict service)).
Proof.
  revert services0 i. induction items as [|x items IH]; intros services0 i;
    cbn [build_services]; [done|].
  intros Hb Hi. apply bind_Ok in Hb as (service & Hsvc & Hb).
  apply bind_Ok in Hb as (declared & Hname & Hb).
  destruct (hashable declared) eqn:Hh; [|done].
  destruct i as [|i]; simpl in Hi.
  - injection Hi as ->. exists service, declared. split; [done|]. split; [done|].
    intros Hlater. rewrite (build_services_keeps _ _ _ _ _ declared Hb).
    + by apply dict_get_set_same.
    + intros svc' n' [j Hj]%list_elem_of_lookup Hn'.
      apply (Hlater (S j) svc'); [lia|done|done].
  - destruct (IH _ _ Hb Hi) as (service' & n & Hs' & Hn & Hlook).
    exists service', n. split; [done|]. split; [done|].
    intros Hlater. apply Hlook. intros j svc' n' Hj Hsvc' Hn'.
    apply (Hlater (S j) svc'); [lia|done|done].
Qed.





End facts.
End ComposeFacts.

Module ConfigFacts.
Import Config ConfigSpec.

Lemma ascii_not_continuation (c : ascii) : is_ascii c = true → is_continuation c = false.
Proof.
  unfold is_ascii, is_continuation. intros Hc%Nat.ltb_lt.
  destruct (Nat.leb_spec 128 (nat_of_ascii c)); [lia|done].
Qed.

Lemma ascii_char_width (c : ascii) : is_ascii c = true → char_width c = 1%nat.
Proof.
  unfold is_ascii, char_width. intros Hc%Nat.ltb_lt.
  destruct (Nat.ltb_spec (nat_of_ascii c) 192); [done|lia].
Qed.

(** A byte that continues no character begins one: the characters before
    it are those of the text before it. *)
Lemma chars_aux_app (pending : nat) (s : string) (x : ascii) (p : string) :
  is_continuation x = false →
  chars_aux pending (s +:+ String x p)
  = ((chars_aux pending s).1, ((chars_aux pending s).2 ++ chars (String x p))%list).
Proof.
  intros Hx. revert pending. induction s as [|c r IH]; intros pending.
  - rewrite string_app_nil_l. unfold chars. simpl. rewrite Hx, andb_false_r.
    by destruct (chars_aux (char_width x - 1) p).
  - rewrite string_app_cons. simpl.
    destruct ((0 <? pending)%nat && is_continuation c).
    + rewrite IH. by destruct (chars_aux (pending - 1) r).
    + rewrite IH. by destruct (chars_aux (char_width c - 1) r).
Qed.

Lemma chars_app (s : string) (x : ascii) (p : string) :
  is_continuation x = false →
  chars (s +:+ String x p) = (chars s ++ chars (String x p))%list.
Proof. intros Hx. unfold chars at 1 2. by rewrite chars_aux_app. Qed.

Lemma chars_ascii (x : ascii) (p : string) :
  is_ascii x = true → chars (String x p) = String x EmptyString :: chars p.
Proof.
  intros Hx. unfold chars. simpl. rewrite (ascii_char_width x Hx). simpl.
  pose proof (text_chars_aux 0 p) as Hp.
  destruct p as [|c r]; [done|]. simpl in *.
  by destruct (chars_aux (char_width c - 1) r).
Qed.

Lemma span_app_stop {A : Type} (f : A → bool) (l1 : list A) (x : A) (l2 : list A) :
  f x = false →
  span f (l1 ++ x :: l2) = ((span f l1).1, ((span f l1).2 ++ x :: l2)%list).
Proof.
  intros Hx. induction l1 as [|y l1 IH]; simpl; [by rewrite Hx|].
  destruct (f y); [|done]. rewrite IH. by destruct (span f l1).
Qed.

Lemma span_all {A : Type} (f : A → bool) (l : list A) :
  Forall (λ x, f x = true) l → span f l = (l, []).
Proof.
  induction 1 as [|x l Hx _ IH]; simpl; [done|]. by rewrite Hx, IH.
Qed.

Section words.
Context `{Runtime}.

Lemma stops_word_char (x : ascii) :
  is_ascii x = true → is_ascii_word x = false →
  is_word_char (String x EmptyString) = false.
Proof. intros Hx Hw. unfold is_word_char. by rewrite Hx. Qed.

Lemma ascii_word_ascii (c : ascii) : is_ascii_word c = true → is_ascii c = true.
Proof.
  unfold is_ascii_word, is_ascii. intros Hc.
  rewrite !orb_true_iff, !andb_true_iff, !Nat.leb_le, Nat.eqb_eq in Hc.
  apply Nat.ltb_lt. lia.
Qed.

(** A non-empty text of ASCII letters, digits and underscores is an
    identifier. *)
Lemma identifier_ascii (key : string) :
  key ≠ "" → Forall (λ c, is_ascii_word c = true) (list_ascii_of_string key) →
  identifier key.
Proof.
  intros Hne Hkey. split; [done|]. clear Hne.
  induction key as [|c key IH]; [constructor|].
  simpl in Hkey. inversion Hkey as [|? ? Hc Hk]; subst.
  rewrite chars_ascii by by apply ascii_word_ascii.
  constructor; [|by apply IH].
  unfold is_word_char. by rewrite (ascii_word_ascii c Hc).
Qed.

Lemma take_word_app (s p : string) :
  stops_word p →
  take_word (s +:+ p) = ((take_word s).1, (take_word s).2 +:+ p).
Proof.
  intros Hp. destruct p as [|x p].
  - rewrite string_app_nil_r. unfold take_word.
    destruct (span is_word_char (chars s)). simpl. by rewrite string_app_nil_r.
  - destruct Hp as [Hx Hw]. unfold take_word.
    rewrite chars_app by by apply ascii_not_continuation.
    rewrite (chars_ascii x p Hx).
    rewrite span_app_stop by by apply stops_word_char.
    destruct (span is_word_char (chars s)) as [w rest]. simpl.
    f_equal. rewrite text_app. f_equal.
    change (text (String x "" :: chars p)) with (String x "" +:+ text (chars p)).
    rewrite text_chars. reflexivity.
Qed.

Lemma take_word_identifier (key rest : string) :
  Forall (λ ch, is_word_char ch = true) (chars key) →
  stops_word rest → take_word (key +:+ rest) = (key, rest).
Proof.
  intros Hkey Hrest. rewrite take_word_app by done.
  unfold take_word. rewrite span_all by done. simpl.
  by rewrite text_chars, string_app_nil_l.
Qed.

Lemma match_placeholder_here (key post : string) :
  identifier key →
  match_placeholder ("${" +:+ key +:+ "}" +:+ post) = Some (key, post).
Proof.
  intros [Hne Hkey]. rewrite !string_app_cons, string_app_nil_l.
  cbn [match_placeholder]. rewrite take_word_identifier; [|done|done].
  destruct key; done.
Qed.

(** Text that starts with a dollar sign: a match that begins before it
    ends before it, and no match is completed by it. *)
Lemma match_placeholder_app (s p : string) :
  s ≠ "" →
  match_placeholder (s +:+ String "$" p)
  = match match_placeholder s with
    | Some (key, rest) => Some (key, rest +:+ String "$" p)
    | None => None
    end.
Proof.
  intros Hs. destruct s as [|c r]; [done|]. rewrite string_app_cons.
  unfold match_placeholder.
  destruct (decide (c = "$"%char)) as [->|Hc]; [|by repeat case_match].
  destruct r as [|c2 r2]; [done|]. rewrite string_app_cons.
  destruct (decide (c2 = "{"%char)) as [->|Hc2]; [|by repeat case_match].
  rewrite take_word_app by done.
  destruct (take_word r2) as [w rest]. simpl.
  destruct w as [|x w]; [done|].
  destruct rest as [|y rest]; rewrite ?string_app_cons, ?string_app_nil_l; [done|].
  by repeat case_match.
Qed.

End words.

Section facts.
Context `{Runtime}.
Variable lookup : dict.
Variable env : gmap string string.

Lemma re_sub_unfold (s : string) :
  re_sub lookup env s =
  match s with
  | EmptyString => EmptyString
  | String c r =>
      match match_placeholder s with
      | Some (key, rest) => _sub lookup env key +:+ re_sub lookup env rest
      | None => String c (re_sub lookup env r)
      end
  end.
Proof.
  funelim (re_sub lookup env s).
  - done.
  - by rewrite Hm.
  - by rewrite e.
Qed.

(** Substitution goes through the text before a dollar sign and the text
    from it on separately. *)
Lemma re_sub_app_dollar (pre p : string) :
  re_sub lookup env (pre +:+ String "$" p)
  = re_sub lookup env pre +:+ re_sub lookup env (String "$" p).
Proof.
  remember (String.length pre) as n eqn:Hn. revert pre Hn.
  induction (lt_wf n) as [n _ IH]. intros pre ->.
  destruct pre as [|c r]; [by rewrite string_app_nil_l, (re_sub_unfold "")|].
  rewrite (re_sub_unfold (String c r +:+ _)), (re_sub_unfold (String c r)).
  rewrite string_app_cons. cbv iota beta. rewrite <-string_app_cons.
  rewrite match_placeholder_app by done.
  destruct (match_placeholder (String c r)) as [[key rest]|] eqn:Hm.
  - rewrite (IH (String.length rest)); [|by eapply match_placeholder_length|done].
    by rewrite string_app_assoc.
  - rewrite string_app_cons. f_equal. apply (IH (String.length r)); [simpl; lia|done].
Qed.

(** A placeholder anywhere in a string is replaced, and what stands
    before and after it is substituted on its own. *)
Lemma re_sub_placeholder (pre key post : string) :
  identifier key →
  re_sub lookup env (pre +:+ "${" +:+ key +:+ "}" +:+ post)
  = re_sub lookup env pre +:+ _sub lookup env key +:+ re_sub lookup env post.
Proof.
  intros Hkey.
  change ("${" +:+ key +:+ "}" +:+ post) with (String "$" ("{" +:+ key +:+ "}" +:+ post)).
  rewrite re_sub_app_dollar. f_equal.
  rewrite re_sub_unfold.
  change (String "$" ("{" +:+ key +:+ "}" +:+ post)) with ("${" +:+ key +:+ "}" +:+ post).
  by rewrite match_placeholder_here.
Qed.

(** Without a dollar sign there is nothing to replace. *)
Lemma re_sub_no_dollar (s : string) :
  "$"%char ∉ list_ascii_of_string s → re_sub lookup env s = s.
Proof.
  induction s as [|c r IH]; intros Hs; rewrite re_sub_unfold; [done|].
  simpl in Hs. apply not_elem_of_cons in Hs as [Hc Hr].
  assert (match_placeholder (String c r) = None) as ->.
  { unfold match_placeholder. by repeat case_match. }
  by rewrite IH.
Qed.

End facts.
End ConfigFacts.

Module LabStateFacts.
Import LabState LabStateSpec.

Lemma startswith_prefix (s p : string) :
  startswith s p = true ↔ ∃ rest, s = p +:+ rest.
Proof.
  revert s. induction p as [|a p IH]; intros s.
  - split; [by exists s|by destruct s].
  - destruct s as [|b s]; simpl.
    + split; [done|]. by intros (rest & ?).
    + rewrite andb_true_iff, bool_decide_eq_true, IH. split.
      * intros [-> (rest & ->)]. by exists rest.
      * intros (rest & [= -> ->]). split; [done|by exists rest].
Qed.

Lemma elem_of_matches (partial_id : string) (entries : gmap string entry) (name : string) :
  name ∈ matches partial_id entries ↔
  ∃ d, entries !! name = Some (EntryDir d) ∧ is_Some (state_yml d) ∧
       startswith name partial_id = true.
Proof.
  unfold matches. rewrite list_elem_of_fmap. split.
  - intros ([n e] & -> & [Hlab Hin]%list_elem_of_filter).
    apply elem_of_map_to_list in Hin. unfold is_lab in Hlab. simpl in *.
    destruct e as [|d]; [done|]. apply andb_prop_elim in Hlab as [Hs Hst].
    exists d. split; [done|]. split; [by apply bool_decide_unpack in Hst|].
    by apply Is_true_eq_true.
  - intros (d & Hl & Hst & Hs). exists (name, EntryDir d). split; [done|].
    apply list_elem_of_filter. split; [|by apply elem_of_map_to_list].
    unfold is_lab. simpl. rewrite Hs. simpl. by apply bool_decide_pack.
Qed.

Lemma NoDup_matches (partial_id : string) (entries : gmap string entry) :
  NoDup (matches partial_id entries).
Proof.
  unfold matches. eapply sublist_NoDup; [apply (NoDup_fst_map_to_list entries)|].
  apply fmap_sublist, sublist_filter.
Qed.

Lemma matching_matches (w : world) (partial_id name : string) :
  matching w partial_id name ↔
  ∃ entries, data_dir w = Some entries ∧ name ∈ matches partial_id entries.
Proof.
  unfold matching, has_record. setoid_rewrite elem_of_matches. split.
  - intros [(entries & d & ? & ? & ?) ?]. exists entries. split; [done|]. by exists d.
  - intros (entries & ? & d & ? & ? & ?). split; [|done]. by exists entries, d.
Qed.

Lemma resolve_id_unfold (partial_id : string) (w : world) (entries : gmap string entry) :
  data_dir w = Some entries →
  resolve_id partial_id w =
  match matches partial_id entries with
  | [] => Raise (StateError ("No lab found matching '" +:+ partial_id +:+ "'"))
  | [m] => Ok m
  | ms => Raise (StateError ("Ambiguous lab ID '" +:+ partial_id +:+
                             "'. Matches: " +:+ join ", " ms))
  end.
Proof.
  unfold resolve_id, matches. intros ->.
  by destruct (fst <$> filter _ _) as [|? [|? ?]].
Qed.

Lemma resolve_id_not_found (partial_id : string) (w : world) :
  (∀ a, ¬ matching w partial_id a) →
  ∃ msg, resolve_id partial_id w = Raise (StateError msg) ∧
         not_found_message partial_id msg.
Proof.
  intros Hnone. destruct (data_dir w) as [entries|] eqn:Hd.
  - rewrite (resolve_id_unfold _ _ _ Hd).
    destruct (matches partial_id entries) as [|m1 ms] eqn:Hm.
    + eexists. split; [done|]. by left.
    + destruct (Hnone m1). apply matching_matches. exists entries.
      split; [done|]. rewrite Hm. by left.
  - unfold resolve_id. rewrite Hd. eexists. split; [done|]. by right.
Qed.

Lemma startswith_app (p rest : string) : startswith (p +:+ rest) p = true.
Proof. apply startswith_prefix. by exists rest. Qed.

(** *** Commands *)

Lemma bind_M_Ok {A B : Type} (m : M A) (k : A → M B) (w w1 : world) (a : A) :
  m w = (Ok a, w1) → (m ≫= k) w = k a w1.
Proof. unfold mbind, M_bind. by intros ->. Qed.

Lemma bind_M_Raise {A B : Type} (m : M A) (k : A → M B) (w w1 : world) (e : exn) :
  m w = (Raise e, w1) → (m ≫= k) w = (Raise e, w1).
Proof. unfold mbind, M_bind. by intros ->. Qed.

Lemma bind_M_inv {A B : Type} (m : M A) (k : A → M B) (w w' : world) (r : result B) :
  (m ≫= k) w = (r, w') →
  (∃ a w1, m w = (Ok a, w1) ∧ k a w1 = (r, w')) ∨
  (∃ e, m w = (Raise e, w') ∧ r = Raise e).
Proof.
  unfold mbind, M_bind. destruct (m w) as [[a|e] w1].
  - intros ?. left. by exists a, w1.
  - intros [= <- <-]. right. by exists e.
Qed.

Section facts.
Context `{Runtime}.

Lemma validate_services_Ok (i : nat) (items : list value) :
  Config.validate_services i items = Ok () →
  Forall (λ svc, py_in "name" svc = Ok true ∧ py_in "image" svc = Ok true
                 ∧ py_in "ip_offset" svc = Ok true) items.
Proof.
  revert i. induction items as [|svc items IH]; intros i; [by constructor|].
  cbn [Config.validate_services]. intros Hv.
  destruct (py_in "name" svc) as [[]|] eqn:Hn; cbn in Hv; [|done|done].
  destruct (py_in "image" svc) as [[]|] eqn:Hi; cbn in Hv;
    [|by destruct (py_get svc "name" _)|done].
  destruct (py_in "ip_offset" svc) as [[]|] eqn:Ho; cbn in Hv;
    [|by destruct (py_getitem svc "name")|done].
  constructor; [done|by eapply IH].
Qed.

(** A validated configuration whose services are mappings declares a
    name, an image and an offset for each. *)
Lemma validate_config_fields (config : dict) (items : list value) :
  Config.validate_config config = Ok () →
  dict_get config (VStr "services") = Some (VList items) →
  Forall (λ svc, ∃ d, svc = VDict d) items →
  Forall (λ svc, ∃ d, svc = VDict d ∧ is_Some (dict_get d (VStr "name"))
                      ∧ is_Some (dict_get d (VStr "image"))
                      ∧ is_Some (dict_get d (VStr "ip_offset"))) items.
Proof.
  unfold Config.validate_config. intros Hv Hs Hd. rewrite Hs in Hv.
  destruct (negb (dict_has config (VStr "name"))); [done|].
  destruct (negb (truthy (VList items))); [done|].
  cbn in Hv. apply validate_services_Ok in Hv.
  rewrite Forall_forall in *. intros svc Hin.
  destruct (Hd svc Hin) as [d ->]. destruct (Hv _ Hin) as (Hn & Hi & Ho).
  exists d. split; [done|].
  apply ComposeFacts.py_in_dict in Hn, Hi, Ho. done.
Qed.

Lemma svc_info_summarises (d : dict) :
  is_Some (dict_get d (VStr "name")) → is_Some (dict_get d (VStr "image")) →
  is_Some (dict_get d (VStr "ip_offset")) →
  ∃ info, svc_info (VDict d) = Ok info ∧ summarises (VDict d) info.
Proof.
  intros [n Hn] [im Him] [off Hoff]. unfold svc_info, py_getitem, py_get.
  rewrite Hn, Him, Hoff. cbn [of_option mbind result_bind].
  set (info0 := [(VStr "name", n); (VStr "image", im); (VStr "ip_offset", off);
                 (VStr "platform", default (VStr "linux") (dict_get d (VStr "platform")))]).
  rewrite ComposeFacts.copy_field_dict_eq. cbn [mbind result_bind].
  rewrite ComposeFacts.copy_field_dict_eq. cbn [mbind result_bind].
  eexists. split; [done|]. eexists d, _. split; [done|]. split; [done|].
  split; [by eexists|].
  subst info0.
  destruct (dict_get d (VStr "access")) as [acc|] eqn:Ea,
           (dict_get d (VStr "ports")) as [po|] eqn:Ep;
    rewrite ?Hn, ?Him, ?Hoff; repeat split; try reflexivity;
    intros k Hk; unfold summary_keys;
    repeat (apply dict_get_set_Some in Hk as [->|Hk]; [set_solver|]);
    repeat (apply dict_get_cons_Some in Hk as [->|Hk]; [set_solver|]);
    by destruct Hk.
Qed.

Lemma mapM_svc_info (items : list value) :
  Forall (λ svc, ∃ d, svc = VDict d ∧ is_Some (dict_get d (VStr "name"))
                      ∧ is_Some (dict_get d (VStr "image"))
                      ∧ is_Some (dict_get d (VStr "ip_offset"))) items →
  ∃ infos, mapM (λ svc, svc_info svc) items = Ok infos ∧
           Forall2 summarises items infos.
Proof.
  induction 1 as [|svc items (d & -> & Hn & Hi & Ho) _ (infos & Hm & Hall)].
  - exists []. split; [done|constructor].
  - destruct (svc_info_summarises d Hn Hi Ho) as (info & Hinfo & Hsum).
    exists (info :: infos). split; [|by constructor].
    cbn [mapM]. rewrite Hinfo. cbn [mbind result_bind]. rewrite Hm. done.
Qed.

Lemma mkdir_Ok (lab_id : string) (w : world) :
  lookup_entry w lab_id ≠ Some EntryFile →
  ∃ w1 entries d0,
    mkdir lab_id w = (Ok (), w1) ∧
    data_dir w1 = Some entries ∧ entries !! lab_id = Some (EntryDir d0) ∧
    clock w1 = clock w ∧ console w1 = console w ∧ docker_log w1 = docker_log w ∧
    environ w1 = environ w.
Proof.
  unfold lookup_entry, mkdir. intros Hne.
  destruct (data_dir w) as [entries|] eqn:Hd; simpl in *.
  - destruct (entries !! lab_id) as [[|d0]|] eqn:He; [done|..].
    + exists w, entries, d0. done.
    + eexists _, _, _. split; [done|]. simpl. split; [done|].
      by rewrite lookup_insert_eq.
  - rewrite lookup_empty. eexists _, _, _. split; [done|]. simpl. split; [done|].
    by rewrite lookup_insert_eq.
Qed.

Lemma _write_Ok (lab_id : string) (state : value) (w : world)
    (entries : gmap string entry) (d : lab_dir) :
  data_dir w = Some entries → entries !! lab_id = Some (EntryDir d) →
  _write lab_id state w
  = (Ok (), mkWorld
              (Some (<[lab_id := EntryDir (mkLabDir (Some (YamlFile state)) (compose_yml d))]>
                       entries))
              (user_files w) (labs_files w) (environ w) (console w) (clock w)
              (docker_log w)).
Proof. unfold _write. by intros -> ->. Qed.

Lemma load_written (lab_id : string) (state : value) (w : world)
    (entries : gmap string entry) (d : lab_dir) :
  data_dir w = Some entries →
  entries !! lab_id = Some (EntryDir d) → state_yml d = Some (YamlFile state) →
  load lab_id w = (Ok state, w).
Proof. unfold load, lookup_entry. intros -> Hl Hs. simpl. by rewrite Hl, Hs. Qed.

End facts.
End LabStateFacts.

Module ControllerFacts.
Import LabState LabStateSpec LabStateFacts Controller.

(** One step of a command whose first part returns. *)
Ltac run_ok tac := erewrite bind_M_Ok; [|solve [tac]]; cbv beta iota.

Section facts.
Context `{Runtime}.

Lemma console_print_Ok (o : output) (w : world) :
  ∃ w', console_print o w = (Ok (), w') ∧
        data_dir w' = data_dir w ∧ clock w' = clock w ∧
        console w' = (console w ++ [o])%list ∧ docker_log w' = docker_log w.
Proof. by eexists. Qed.

Lemma update_status_Ok (lab_id status : string) (w : world)
    (entries : gmap string entry) (d : lab_dir) (rec : dict) :
  data_dir w = Some entries → entries !! lab_id = Some (EntryDir d) →
  state_yml d = Some (YamlFile (VDict rec)) →
  ∃ w', update_status lab_id status w = (Ok (), w') ∧
        data_dir w'
        = Some (<[lab_id := EntryDir (mkLabDir
                   (Some (YamlFile (VDict
                      (dict_set (dict_set rec (VStr "status") (VStr status))
                                (VStr "updated_at") (VStr (utc_now (clock w)))))))
                   (compose_yml d))]> entries) ∧
        console w' = console w ∧ docker_log w' = docker_log w.
Proof.
  intros Hd He Hs. unfold update_status.
  run_ok ltac:(eapply load_written; eassumption).
  run_ok ltac:(reflexivity).
  erewrite _write_Ok; [|by simpl|done]. by eexists.
Qed.

Lemma delete_Ok (lab_id : string) (w : world) (entries : gmap string entry) (d : lab_dir) :
  data_dir w = Some entries → entries !! lab_id = Some (EntryDir d) →
  ∃ w', LabState.delete lab_id w = (Ok (), w') ∧
        data_dir w' = Some (base.delete lab_id entries) ∧
        console w' = console w ∧ docker_log w' = docker_log w.
Proof. intros Hd He. unfold LabState.delete. rewrite Hd, He. by eexists. Qed.

(** With [force], a failure of [docker compose down] is only reported. *)
Lemma down_forced (compose_file project : string) (volumes : bool) (w : world) :
  ∃ w', try_except (DockerManager.down compose_file project volumes) is_DockerError
          (λ e, if negb true then raise e
                else console_print (Line ("[yellow]Warning:[/yellow] " +:+ exn_message e))) w
        = (Ok (), w') ∧ data_dir w' = data_dir w.
Proof.
  unfold try_except, DockerManager.down, DockerManager._run, DockerManager.subprocess_run.
  unfold mbind, M_bind.
  destruct (docker_compose _ _); by eexists.
Qed.

(** *** Commands that leave the record of a lab in place *)

Section preservation.
Variable lab_id : string.
Variable created : dict.

Local Abbreviation keeps := (preserves lab_id created).

Lemma preserves_pure {A : Type} (c : M A) :
  (∀ w, ∃ r w', c w = (r, w') ∧ data_dir w' = data_dir w) → keeps c.
Proof.
  intros Hc w r w' Hrun (entries & d & rec & Hd & Hrest).
  destruct (Hc w) as (r0 & w0 & Hrun0 & Hd0). simplify_eq.
  exists entries, d, rec. split; [congruence|done].
Qed.








Lemma preserves_now_iso : keeps now_iso.
Proof. apply preserves_pure. intros w. by eexists _, _. Qed.




Lemma preserves_write (state : dict) :
  (∀ k, k ≠ "status" → k ≠ "updated_at" →
        dict_get state (VStr k) = dict_get created (VStr k)) →
  keeps (_write lab_id (VDict state)).
Proof.
  intros Hstate w r w' Hrun (entries & d & rec & Hd & He & _).
  rewrite (_write_Ok _ _ _ _ _ Hd He) in Hrun. simplify_eq.
  eexists _, _, state. split; [done|]. split; [apply lookup_insert_eq|done].
Qed.







End preservation.

Lemma write_inv (lab_id : string) (state : value) (w w' : world) :
  _write lab_id state w = (Ok (), w') →
  ∃ entries d, data_dir w' = Some entries ∧
               entries !! lab_id = Some (EntryDir d) ∧
               state_yml d = Some (YamlFile state).
Proof.
  unfold _write. destruct (data_dir w) as [entries|]; [|done].
  destruct (entries !! lab_id) as [[|d]|]; try done.
  intros [= <-]. eexists _, _. split; [done|]. split; [apply lookup_insert_eq|done].
Qed.

(** A record [create] returns is on disk, with the inputs in it. *)
Lemma create_record (lab_id template : string) (config : dict) (subnet : string)
    (state : value) (w w' : world) :
  create lab_id template config subnet w = (Ok state, w') →
  ∃ rec, state = VDict rec ∧ record_kept lab_id rec w' ∧
         dict_get rec (VStr "lab_id") = Some (VStr lab_id) ∧
         dict_get rec (VStr "template") = Some (VStr template) ∧
         dict_get rec (VStr "subnet") = Some (VStr subnet).
Proof.
  unfold create. intros Hrun.
  repeat (apply bind_M_inv in Hrun as [(? & ? & ? & Hrun)|(? & ? & ?)]; [|done]).
  unfold mret, M_ret in Hrun. simplify_eq.
  match goal with
  | Hw : _write _ _ _ = (Ok ?u, _) |- _ =>
      destruct u; apply write_inv in Hw as (entries & d & ? & ? & ?)
  end.
  eexists. split; [done|]. split; [by exists entries, d; eexists|done].
Qed.



End facts.
End ControllerFacts.

Module NetworkClaims.
Import Network NetworkSpec NetworkFacts.

(** C1. Whenever some allocatable block 172.30.k.0/24 (1 <= k <= 255) is
    missing from the used set, [allocate] returns the first block of the
    pool, in ascending address order, that is neither the reserved block
    172.30.0.0/24 nor in the used set; the returned string denotes that
    block, and the block is recorded as used. *)
Theorem allocate_first_free (used : gset IPv4Network) :
  (∃ k, (1 ≤ k ≤ 255) ∧ block k ∉ used) →
  ∃ k, (1 ≤ k ≤ 255) ∧
       allocate used = Ok (network_to_string (block k), used ∪ {[ block k ]}) ∧
       IPv4Network_of_string (network_to_string (block k)) = Some (block k) ∧
       (block k ∉ used) ∧ block k ≠ block 0 ∧
       ∀ j, 1 ≤ j < k → block j ∈ used.
Proof.
  intros (k0 & Hk0 & Hfree). unfold allocate.
  destruct (allocate_loop used (subnets BASE_NETWORK SUBNET_PREFIX))
    as [[s used']|e] eqn:Hloop.
  - apply allocate_loop_Ok in Hloop as (i & net & Hi & Hns & -> & -> & Hpre).
    apply pool_lookup in Hi as [-> Hlt].
    rewrite skipped_block in Hns.
    assert (Z.of_nat i ≠ 0) by (intros ?; apply Hns; by left).
    exists (Z.of_nat i). split; [lia|]. split; [done|]. repeat split.
    + apply block_string_roundtrip. lia.
    + intros ?. apply Hns. by right.
    + intros Heq%block_inj. apply Hns. by left.
    + intros j Hj.
      destruct (Hpre (Z.to_nat j) (block j)) as [Hz|Hin]; [lia|apply pool_lookup_block; lia| |done].
      rewrite block_address in Hz. lia.
  - apply allocate_loop_Raise in Hloop as [_ Hall].
    destruct (Hall (block k0)) as [Hz|Hin]; [|rewrite block_address in Hz; lia|done].
    apply elem_of_pool. exists k0. split; [lia|done].
Qed.

Lemma allocate_first_free_witness :
  ∃ k, (1 ≤ k ≤ 255) ∧
       allocate {[ block 1; block 3 ]}
         = Ok (network_to_string (block k), {[ block 1; block 3 ]} ∪ {[ block k ]}) ∧
       IPv4Network_of_string (network_to_string (block k)) = Some (block k) ∧
       (block k ∉ ({[ block 1; block 3 ]} : gset IPv4Network)) ∧ block k ≠ block 0 ∧
       ∀ j, 1 ≤ j < k → block j ∈ ({[ block 1; block 3 ]} : gset IPv4Network).
Proof.
  apply (allocate_first_free {[ block 1; block 3 ]}).
  exists 2. split; [lia|]. vm_compute. intros H. discriminate H.
Defined.

(** C2, as the code has it.  The pool holds 255 allocatable blocks,
    172.30.1.0/24 to 172.30.255.0/24; when all of them are in the used set
    [allocate] raises [NetworkError]. *)
Theorem allocate_exhausted :
  length allocatable = 255%nat ∧
  (∀ net, net ∈ allocatable ↔ ∃ k, (1 ≤ k ≤ 255) ∧ net = block k) ∧
  ∀ used : gset IPv4Network,
    (∀ net, net ∈ allocatable → net ∈ used) →
    allocate used = Raise (NetworkError "No available subnets in 172.30.0.0/16").
Proof.
  assert (∀ net, net ∈ allocatable ↔ ∃ k, (1 ≤ k ≤ 255) ∧ net = block k) as Hall.
  { intros net. unfold allocatable. rewrite list_elem_of_filter, elem_of_pool. split.
    - intros (Hne & k & Hk & ->). exists k. split; [|done].
      rewrite block_address in Hne. lia.
    - intros (k & Hk & ->). split; [rewrite block_address; lia|].
      exists k. split; [lia|done]. }
  split; [reflexivity|]. split; [done|].
  intros used Hused. apply allocate_loop_all_skipped.
  intros net (k & Hk & ->)%elem_of_pool. apply skipped_block.
  destruct (decide (k = 0)); [by left|right].
  apply Hused, Hall. exists k. split; [lia|done].
Qed.

Lemma allocate_exhausted_witness :
  allocate (list_to_set allocatable)
  = Raise (NetworkError "No available subnets in 172.30.0.0/16").
Proof.
  apply (proj2 (proj2 allocate_exhausted) (list_to_set allocatable)).
  intros net Hnet. apply elem_of_list_to_set, Hnet.
Defined.

(** C2, as the claim counts.  With 254 allocatable blocks in the used set
    (172.30.1.0/24 to 172.30.254.0/24) the pool is not exhausted:
    [allocate] returns 172.30.255.0/24, the 255th allocatable block. *)
Lemma allocate_254_used_succeeds :
  let used : gset IPv4Network := list_to_set (block <$> seqZ 1 254) in
  size used = 254%nat ∧
  (∀ net, net ∈ used → net ∈ allocatable) ∧
  length allocatable ≠ 254%nat ∧
  fst <$> allocate used = Ok "172.30.255.0/24".
Proof.
  intros used. split; [|split; [|split]].
  - vm_compute. reflexivity.
  - intros net. unfold used.
    rewrite elem_of_list_to_set, list_elem_of_fmap.
    intros (k & -> & Hk%elem_of_seqZ).
    apply allocate_exhausted. exists k. split; [lia|done].
  - vm_compute. discriminate.
  - vm_compute. reflexivity.
Qed.




(** C10. The constructor never fails: the used set holds exactly the
    networks of the entries that parse, and an entry that does not parse
    changes nothing.  So when the subnet fields of all records are corrupt
    the used set is empty and [allocate] returns 172.30.1.0/24, whichever
    lab occupies it. *)
Theorem init_discards_unparsable :
  (∀ (used_subnets : list string) (net : IPv4Network),
      net ∈ init (VStr <$> used_subnets) ↔
      ∃ s, s ∈ used_subnets ∧ IPv4Network_of_string s = Some net) ∧
  (∀ (l1 l2 : list value) (v : value),
      IPv4Network_of_value v = None → init (l1 ++ v :: l2) = init (l1 ++ l2)) ∧
  (∀ w : world,
      (∀ v, v ∈ LabState.used_subnets w → IPv4Network_of_value v = None) →
      init (LabState.used_subnets w) = ∅ ∧
      fst <$> allocate (init (LabState.used_subnets w)) = Ok "172.30.1.0/24").
Proof.
  split; [|split].
  - intros l net. rewrite elem_of_init. setoid_rewrite list_elem_of_fmap. split.
    + intros (v & (s & -> & Hs) & Hp). by exists s.
    + intros (s & Hs & Hp). exists (VStr s). split; [by exists s|done].
  - intros l1 l2 v Hv. apply set_eq. intros net. rewrite !elem_of_init.
    split; intros (v' & Hin & Hp); exists v'; (split; [|done]);
      rewrite elem_of_app in *; rewrite ?elem_of_cons in *.
    + destruct Hin as [?|[->|?]]; [by left|congruence|by right].
    + destruct Hin as [?|?]; [by left|by right; right].
  - intros w Hall.
    assert (init (LabState.used_subnets w) = ∅) as ->.
    { apply set_eq. intros net. rewrite elem_of_init. split.
      - intros (v & Hin & Hp). apply Hall in Hin. congruence.
      - intros ?%not_elem_of_empty. done. }
    split; [done|]. reflexivity.
Qed.

Lemma init_discards_unparsable_witness :
  init (LabState.used_subnets (one_lab_world "172.30.1.0/24 ")) = ∅ ∧
  fst <$> allocate (init (LabState.used_subnets (one_lab_world "172.30.1.0/24 ")))
  = Ok "172.30.1.0/24".
Proof.
  apply (proj2 (proj2 init_discards_unparsable) (one_lab_world "172.30.1.0/24 ")).
  intros v Hv.
  assert (LabState.used_subnets (one_lab_world "172.30.1.0/24 ")
          = [VStr "172.30.1.0/24 "]) as Hused by (vm_compute; reflexivity).
  rewrite Hused in Hv. apply list_elem_of_singleton in Hv as ->.
  vm_compute. reflexivity.
Defined.

End NetworkClaims.

Module ComposeClaims.
Import Compose ComposeSpec ComposeFacts Examples.
Section claims.
Context `{Runtime}.

(** What [_build_service] guarantees about a definition it returns. *)
Lemma build_service_spec (svc : value) (subnet network_name : string) (service : dict) :
  _build_service svc subnet network_name = Ok service →
  ∃ d, svc = VDict d ∧
    match dict_get d (VStr "network_mode") with
    | Some nm =>
        dict_get service (VStr "network_mode") = Some nm ∧
        dict_get service (VStr "networks") = None
    | None =>
        dict_get service (VStr "network_mode") = None ∧
        ∃ off ip, dict_get d (VStr "ip_offset") = Some off ∧
                  compute_ip (VStr subnet) off = Ok ip ∧
                  dict_get service (VStr "networks") = Some (attachment network_name ip)
    end ∧
    dict_get service (VStr "cap_add")
    = if is_str (default VNull (dict_get d (VStr "platform"))) "windows-docker"
      then Some (VList [VStr "NET_ADMIN"])
      else dict_get d (VStr "cap_add").
Proof.
  unfold _build_service. intros Hb.
  apply bind_Ok in Hb as (image & Himage & Hb).
  apply py_getitem_Ok in Himage as (d & -> & Himage). exists d. split; [done|].
  apply bind_Ok in Hb as (name & Hname & Hb). cbv zeta in Hb.
  apply bind_Ok in Hb as (s0 & Hhost & Hb).
  apply bind_Ok in Hb as (off & Hoff & Hb).
  apply bind_Ok in Hb as (ip & Hip & Hb). cbv zeta in Hb.
  apply bind_Ok in Hb as (platform & Hplat & Hb). cbv zeta in Hb.
  apply bind_Ok in Hb as (has_res & Hres & Hb).
  apply bind_Ok in Hb as (s2 & Hs2 & Hb).
  apply bind_Ok in Hb as (s3 & Hs3 & Hb).
  apply bind_Ok in Hb as (s4 & Hs4 & Hb).
  apply bind_Ok in Hb as (s5 & Hs5 & Hb).
  apply bind_Ok in Hb as (s6 & Hs6 & Hb).
  apply bind_Ok in Hb as (s7 & Hs7 & Hb).
  apply bind_Ok in Hb as (s8 & Hs8 & Hb).
  apply bind_Ok in Hb as (s9 & Hs9 & Hb).
  apply bind_Ok in Hb as (s10 & Hs10 & Hb).
  apply bind_Ok in Hb as (has_cap & Hcap & Hb).
  apply bind_Ok in Hb as (s11 & Hs11 & Hb).
  apply bind_Ok in Hb as (has_nm & Hnm & Hb).
  apply py_getitem_Ok in Hoff as (? & [= <-] & Hoff).
  injection Hplat as <-.
  set (windows := is_str (default VNull (dict_get d (VStr "platform"))) "windows-docker") in *.
  set (nets := VDict [(VStr network_name, VDict [(VStr "ipv4_address", VStr ip)])]) in *.
  (* up to the network attachment *)
  assert (str_dict s0 ∧ dict_get s0 (VStr "network_mode") = None
          ∧ dict_get s0 (VStr "cap_add") = None) as (Hs0 & Hs0m & Hs0c).
  { split; [|split].
    - eapply copy_field_str_dict; [exact Hhost|]. apply str_dict_set. by repeat constructor.
    - by rewrite (copy_field_get_ne _ _ _ _ _ Hhost).
    - by rewrite (copy_field_get_ne _ _ _ _ _ Hhost). }
  assert (tracked (dict_set s0 (VStr "networks") nets) nets None) as Hn.
  { split; [by apply str_dict_set|]. by rewrite dict_get_set_eq, !dict_get_set_ne. }
  (* the platform grants *)
  set (cap1 := if windows then Some (VList [VStr "NET_ADMIN"]) else None).
  assert (tracked s2 nets cap1) as Ht2.
  { assert (tracked (if windows
                     then dict_set (dict_set (dict_set (dict_set s0 (VStr "networks") nets)
                            (VStr "devices") (VList [VStr "/dev/kvm"]))
                            (VStr "cap_add") (VList [VStr "NET_ADMIN"]))
                            (VStr "stop_grace_period") (VStr "120s")
                     else dict_set s0 (VStr "networks") nets) nets cap1) as Hp.
    { unfold cap1. destruct windows; [|done].
      apply tracked_set; [done|]. apply tracked_set_cap_add with (cap := None).
      by apply tracked_set. }
    destruct has_res.
    - apply bind_Ok in Hs2 as (res & _ & Hs2).
      apply bind_Ok in Hs2 as (deploy & _ & [= <-]). by apply tracked_set.
    - by injection Hs2 as <-. }
  assert (tracked s10 nets cap1) as Ht10.
  { eapply tracked_copy_field; [exact Hs10|done|].
    eapply tracked_copy_field; [exact Hs9|done|].
    eapply tracked_copy_field; [exact Hs8|done|].
    eapply tracked_copy_field; [exact Hs7|done|].
    eapply tracked_copy_field; [exact Hs6|done|].
    eapply tracked_copy_field; [exact Hs5|done|].
    eapply tracked_copy_field; [exact Hs4|done|].
    eapply tracked_copy_field; [exact Hs3|done|]. done. }
  (* the declared capabilities *)
  set (cap2 := if windows then Some (VList [VStr "NET_ADMIN"])
               else dict_get d (VStr "cap_add")).
  assert (tracked s11 nets cap2) as Ht11.
  { apply py_in_dict in Hcap. unfold cap1, cap2 in *. destruct has_cap.
    - apply bind_Ok in Hs11 as (? & [= <-] & Hs11). fold windows in Hs11.
      destruct windows; cbn [negb] in Hs11.
      + by injection Hs11 as <-.
      + apply bind_Ok in Hs11 as (cap & Hc & [= <-]).
        apply py_getitem_Ok in Hc as (? & [= <-] & ->).
        by apply tracked_set_cap_add with (cap := None).
    - injection Hs11 as <-. rewrite Hcap. by destruct windows. }
  (* network_mode *)
  apply py_in_dict in Hnm. destruct Ht11 as (Hstr & Hgn & Hgm & Hgc).
  destruct has_nm.
  - apply bind_Ok in Hb as (nm & Hgetnm & [= <-]).
    apply py_getitem_Ok in Hgetnm as (? & [= <-] & ->).
    split; [split|].
    + by rewrite dict_get_pop_ne, dict_get_set_eq.
    + apply str_dict_get_pop. by apply str_dict_set.
    + by rewrite dict_get_pop_ne, dict_get_set_ne.
  - injection Hb as <-. rewrite Hnm. split; [|done].
    split; [done|]. by exists off, ip.
Qed.

(** C4, as the code has it.  In a manifest [generate] returns, every
    declared service has a definition, the one [_build_service] returns
    for it, and in it: with a declared [network_mode] the definition
    carries that [network_mode] and no network attachment, never both;
    without one it carries the attachment at the computed address and no
    [network_mode]; on the platform [windows-docker] its [cap_add] is
    exactly [NET_ADMIN], whatever the service declares; on any other
    platform it is the declared one.  The definition is the entry of the
    manifest under the name of the service, unless a service declared
    later has the same name (the manifest keeps one entry per name, the
    last); and the manifest has no other entries than definitions of
    declared services. *)
Theorem manifest_network_mode_and_cap_add (config : dict) (subnet lab_id : string)
    (compose : value) :
  generate config subnet lab_id = Ok compose →
  ∃ manifest services declared items,
    compose = VDict manifest ∧
    dict_get manifest (VStr "services") = Some (VDict services) ∧
    dict_get config (VStr "services") = Some declared ∧
    py_iter declared = Ok items ∧
    (∀ i item, items !! i = Some item →
       ∃ svc n service,
         item = VDict svc ∧ dict_get svc (VStr "name") = Some n ∧
         _build_service item subnet ("labforge-" +:+ lab_id) = Ok service ∧
         honours subnet ("labforge-" +:+ lab_id) svc service ∧
         ((∀ j svc' n', (i < j)%nat → items !! j = Some (VDict svc') →
                        dict_get svc' (VStr "name") = Some n' → key_eqb n' n = false) →
          dict_get services n = Some (VDict service))) ∧
    (∀ name def, (name, def) ∈ services →
       ∃ svc n service,
         VDict svc ∈ items ∧ dict_get svc (VStr "name") = Some n ∧
         key_eqb name n = true ∧ def = VDict service ∧
         honours subnet ("labforge-" +:+ lab_id) svc service).
Proof.
  unfold generate. intros Hg. cbv zeta in Hg.
  apply bind_Ok in Hg as (gateway & _ & Hg).
  apply bind_Ok in Hg as (declared & Hdecl & Hg).
  apply bind_Ok in Hg as (items & Hitems & Hg).
  apply bind_Ok in Hg as (services & Hsvcs & [= <-]).
  destruct (dict_get config (VStr "services")) as [declared'|] eqn:Hcs; [|done].
  injection Hdecl as ->.
  assert (∀ svc service, _build_service (VDict svc) subnet ("labforge-" +:+ lab_id)
                         = Ok service →
                         honours subnet ("labforge-" +:+ lab_id) svc service) as Hhon.
  { intros svc service Hbuild.
    apply build_service_spec in Hbuild as (d & [= <-] & Hmode & Hcap).
    split; [|split; [|split; [|split]]].
    - intros [[? Hm] [? Hnets]]. destruct (dict_get svc (VStr "network_mode")).
      + destruct Hmode as [_ ?]. congruence.
      + destruct Hmode as [? _]. congruence.
    - intros nm Hd. by rewrite Hd in Hmode.
    - intros Hd. by rewrite Hd in Hmode.
    - intros Hp. by rewrite Hp in Hcap.
    - intros Hp. by rewrite Hp in Hcap. }
  eexists _, services, declared, items. split; [done|]. split.
  { destruct (truthy _); reflexivity. }
  split; [done|]. split; [done|]. split.
  - intros i item Hi.
    destruct (build_services_lookup _ _ _ _ _ _ _ Hsvcs Hi)
      as (service & n & Hbuild & Hn & Hlook).
    apply py_getitem_Ok in Hn as (svc & -> & Hn).
    exists svc, n, service. split; [done|]. split; [done|]. split; [done|].
    split; [by apply Hhon|].
    intros Hlater. apply Hlook. intros j item' n' Hj Hitem' Hn'.
    apply py_getitem_Ok in Hn' as (svc' & -> & Hn').
    by apply (Hlater j svc').
  - intros name def Hin.
    destruct (build_services_spec _ _ _ _ _ Hsvcs name def Hin)
      as [?%elem_of_nil|(item & service & n & Hitem & Hn & Hkey & Hbuild & ->)]; [done|].
    apply py_getitem_Ok in Hn as (svc & -> & Hn).
    exists svc, n, service. split; [done|]. split; [done|]. split; [done|].
    split; [done|]. by apply Hhon.
Qed.

End claims.

(** C4, as the claim has it.  In a template the validation accepts, two
    services have the same name and the first declares the [network_mode]
    [host]: the manifest has one entry of that name, the definition of the
    second service, so the definition under the name of the first holds a
    network attachment and no [network_mode]. *)
Lemma duplicate_name_loses_network_mode :
  Config.validate_config (H := example_runtime) twin_config = Ok () ∧
  ∃ first second manifest services def,
    dict_get twin_config (VStr "services") = Some (VList [VDict first; VDict second]) ∧
    dict_get first (VStr "name") = Some (VStr "node") ∧
    dict_get first (VStr "network_mode") = Some (VStr "host") ∧
    generate (H := example_runtime) twin_config "172.30.1.0/24" "twi-9f86d081"
    = Ok (VDict manifest) ∧
    dict_get manifest (VStr "services") = Some (VDict services) ∧
    services = [(VStr "node", VDict def)] ∧
    dict_get def (VStr "network_mode") = None ∧
    dict_get def (VStr "networks")
    = Some (attachment "labforge-twi-9f86d081" "172.30.1.11") ∧
    dict_get def (VStr "image") = dict_get second (VStr "image").
Proof.
  split; [vm_compute; reflexivity|].
  eexists _, _, _, _, _. split; [reflexivity|].
  split; [reflexivity|]. split; [reflexivity|].
  split; [vm_compute; reflexivity|].
  split; [reflexivity|]. split; [reflexivity|].
  split; [reflexivity|]. split; reflexivity.
Qed.

Lemma manifest_network_mode_and_cap_add_witness :
  ∃ win10 victim,
    dict_get example_manifest_services (VStr "win10") = Some (VDict win10) ∧
    dict_get win10 (VStr "network_mode") = Some (VStr "host") ∧
    dict_get win10 (VStr "networks") = None ∧
    dict_get win10 (VStr "cap_add") = Some (VList [VStr "NET_ADMIN"]) ∧
    dict_get example_manifest_services (VStr "victim") = Some (VDict victim) ∧
    dict_get victim (VStr "network_mode") = None ∧
    dict_get victim (VStr "networks")
    = Some (attachment "labforge-mal-9f86d081" "172.30.1.10") ∧
    dict_get victim (VStr "cap_add") = None.
Proof.
  destruct (manifest_network_mode_and_cap_add (H := example_runtime)
              example_config "172.30.1.0/24" "mal-9f86d081" example_manifest
              ltac:(vm_compute; reflexivity))
    as (manifest & services & declared & items & Hm & Hs & Hd & Hi & Hall & _).
  injection Hm as <-. injection Hs as <-. injection Hd as <-. injection Hi as <-.
  destruct (Hall 0%nat _ eq_refl) as (svc0 & n0 & win10 & E0 & Hn0 & Hb0 & Hh0 & Hl0).
  destruct (Hall 1%nat _ eq_refl) as (svc1 & n1 & victim & E1 & Hn1 & Hb1 & Hh1 & Hl1).
  injection E0 as <-. injection E1 as <-.
  injection Hn0 as <-. injection Hn1 as <-.
  destruct Hh0 as (_ & Hmode0 & _ & Hwin0 & _).
  destruct Hh1 as (_ & _ & Hnone1 & _ & Hcap1).
  destruct (Hmode0 _ eq_refl) as [Hm0 Hnet0].
  destruct (Hnone1 eq_refl) as (Hm1 & off & ip & Hoff & Hip & Hnet1).
  injection Hoff as <-. vm_compute in Hip. injection Hip as <-.
  exists win10, victim.
  split.
  { apply Hl0. intros j svc' n' Hj Hsvc' Hn'.
    destruct j as [|[|[|j]]]; [lia| |done|done].
    injection Hsvc' as <-. by injection Hn' as <-. }
  split; [exact Hm0|]. split; [exact Hnet0|]. split; [exact (Hwin0 eq_refl)|].
  split.
  { apply Hl1. intros j svc' n' Hj Hsvc' Hn'.
    destruct j as [|[|[|j]]]; [lia|lia|done|done]. }
  split; [exact Hm1|]. split; [exact Hnet1|]. exact (Hcap1 eq_refl).
Defined.

End ComposeClaims.

Module ConfigClaims.
Import Config ConfigSpec ConfigFacts Examples.
Section claims.
Context `{Runtime}.

Lemma dict_get_map_values (f : value → value) (d : dict) (k : value) :
  dict_get (map (λ '(k, v), (k, f v)) d) k = f <$> dict_get d k.
Proof.
  induction d as [|[k' v'] d IH]; simpl; [done|].
  by destruct (key_eqb k' k).
Qed.

(** [_replace] keeps the shape of a document and acts on what a path
    leads to. *)
Lemma value_at_replace (lookup : dict) (env : gmap string string)
    (path : list step) (v : value) :
  value_at path (_replace lookup env v) = _replace lookup env <$> value_at path v.
Proof.
  revert v. induction path as [|[i|k] path IH]; intros v; [done|..].
  - destruct v; try done. cbn [_replace value_at].
    change (map (_replace lookup env) l) with (_replace lookup env <$> l).
    rewrite list_lookup_fmap. destruct (l !! i); simpl; [apply IH|done].
  - destruct v; try done. cbn [_replace value_at].
    rewrite dict_get_map_values. destruct (dict_get d k); simpl; [apply IH|done].
Qed.

(** C8. When the settings of a configuration are a mapping (or absent),
    [interpolate_variables] returns a configuration of the same shape in
    which every string value, at any depth, went through the
    substitution; the substitution replaces each placeholder
    [${identifier}] and treats the text around it on its own; an
    identifier is a non-empty run of word characters as [\w] has them in a
    [str] pattern, so every run of ASCII letters, digits and underscores
    is one, and so is a letter outside ASCII; a placeholder is resolved
    by the settings first, then by the environment, and stays as it is
    when neither has it. *)
Theorem interpolation_replaces_placeholders (env : gmap string string)
    (config settings : dict) :
  default (VDict []) (dict_get config (VStr "settings")) = VDict settings →
  ∃ config',
    interpolate_variables env config = Ok config' ∧
    (∀ path, value_at path (VDict config')
             = _replace settings env <$> value_at path (VDict config)) ∧
    (∀ path s, value_at path (VDict config) = Some (VStr s) →
               value_at path (VDict config') = Some (VStr (re_sub settings env s))) ∧
    (∀ pre key post, identifier key →
       re_sub settings env (pre +:+ "${" +:+ key +:+ "}" +:+ post)
       = re_sub settings env pre +:+ _sub settings env key +:+ re_sub settings env post) ∧
    (∀ key, key ≠ "" →
            Forall (λ c, is_ascii_word c = true) (list_ascii_of_string key) →
            identifier key) ∧
    (∀ ch, chars ch = [ch] → is_word_char ch = true → identifier ch) ∧
    (∀ s, "$"%char ∉ list_ascii_of_string s → re_sub settings env s = s) ∧
    (∀ key v, dict_get settings (VStr key) = Some v →
              _sub settings env key = py_str v) ∧
    (∀ key e, dict_get settings (VStr key) = None → env !! key = Some e →
              _sub settings env key = e) ∧
    (∀ key, dict_get settings (VStr key) = None → env !! key = None →
            _sub settings env key = "${" +:+ key +:+ "}").
Proof.
  intros Hs. unfold interpolate_variables. rewrite Hs.
  eexists. split; [done|].
  assert (∀ path, value_at path (VDict (map (λ '(k, v), (k, _replace settings env v)) config))
                  = _replace settings env <$> value_at path (VDict config)) as Hpath.
  { intros path. by rewrite <-value_at_replace. }
  split; [done|]. split.
  { intros path s Hv. by rewrite Hpath, Hv. }
  split; [intros; by apply re_sub_placeholder|].
  split; [intros; by apply identifier_ascii|].
  split.
  { intros ch Hch Hw. split; [by intros ->|]. rewrite Hch. by constructor. }
  split; [intros; by apply re_sub_no_dollar|].
  unfold _sub. repeat split.
  - by intros key v ->.
  - by intros key e -> ->.
  - by intros key -> ->.
Qed.

End claims.

Lemma interpolation_replaces_placeholders_witness :
  ∃ config',
    interpolate_variables (H := example_runtime) example_environ example_template
    = Ok config' ∧
    value_at [Key (VStr "services"); Index 0; Key (VStr "environment");
              Key (VStr "DB_PASS")] (VDict config') = Some (VStr "x1") ∧
    value_at [Key (VStr "services"); Index 0; Key (VStr "environment");
              Key (VStr "DB_URL")] (VDict config')
    = Some (VStr "db://root:x1@10.0.0.5/${unset}") ∧
    value_at [Key (VStr "description")] (VDict config')
    = Some (VStr ("caf" +:+ e_acute +:+ " x2")).
Proof.
  destruct (interpolation_replaces_placeholders (H := example_runtime)
              example_environ example_template
              [(VStr "password", VStr "x1"); (VStr e_acute, VStr "x2")] eq_refl)
    as (config' & Hok & _ & Hstr & _).
  exists config'. split; [exact Hok|]. split; [|split].
  - exact (Hstr [Key (VStr "services"); Index 0; Key (VStr "environment");
                 Key (VStr "DB_PASS")] "${password}" eq_refl).
  - exact (Hstr [Key (VStr "services"); Index 0; Key (VStr "environment");
                 Key (VStr "DB_URL")] "db://root:${password}@${host}/${unset}" eq_refl).
  - exact (Hstr [Key (VStr "description")]
                ("caf" +:+ e_acute +:+ " ${" +:+ e_acute +:+ "}") eq_refl).
Defined.

End ConfigClaims.

Module LabStateClaims.
Import LabState LabStateSpec LabStateFacts.

(** C9. [resolve_id] matches the partial identifier against the names of
    the lab directories (the directories that hold a record) as a prefix:
    two different matching names make it fail with the ambiguity error,
    no matching name makes it fail with the not-found error, and a name
    that is the only match is returned. *)
Theorem resolve_id_prefix_match (w : world) (partial_id : string) :
  (∀ name, matching w partial_id name ↔
           has_record w name ∧ ∃ rest, name = partial_id +:+ rest) ∧
  (∀ a b, a ≠ b → matching w partial_id a → matching w partial_id b →
          ∃ msg, resolve_id partial_id w = Raise (StateError msg) ∧
                 ambiguous_message partial_id msg) ∧
  ((∀ a, ¬ matching w partial_id a) →
          ∃ msg, resolve_id partial_id w = Raise (StateError msg) ∧
                 not_found_message partial_id msg) ∧
  (∀ a, matching w partial_id a → (∀ b, matching w partial_id b → b = a) →
        resolve_id partial_id w = Ok a).
Proof.
  split; [|split; [|split]].
  - intros name. unfold matching. by rewrite startswith_prefix.
  - intros a b Hne (entries & Hd & Ha)%matching_matches (entries' & Hd' & Hb)%matching_matches.
    simplify_eq. rewrite (resolve_id_unfold _ _ _ Hd).
    pose proof (NoDup_matches partial_id entries) as Hnd.
    destruct (matches partial_id entries) as [|m1 [|m2 ms]] eqn:Hm.
    + by apply elem_of_nil in Ha.
    + apply list_elem_of_singleton in Ha, Hb. congruence.
    + eexists. split; [done|]. unfold ambiguous_message.
      rewrite <-!string_app_assoc. apply startswith_app.
  - apply resolve_id_not_found.
  - intros a (entries & Hd & Ha)%matching_matches Huniq.
    rewrite (resolve_id_unfold _ _ _ Hd).
    pose proof (NoDup_matches partial_id entries) as Hnd.
    destruct (matches partial_id entries) as [|m1 [|m2 ms]] eqn:Hm.
    + by apply elem_of_nil in Ha.
    + by apply list_elem_of_singleton in Ha as ->.
    + assert (m1 = a) as ->.
      { apply Huniq, matching_matches. exists entries. split; [done|]. rewrite Hm. by left. }
      assert (m2 = a) as ->.
      { apply Huniq, matching_matches. exists entries. split; [done|].
        rewrite Hm. right. by left. }
      apply NoDup_cons in Hnd as [Hnin _]. destruct Hnin. by left.
Qed.

Lemma two_labs_matching (partial_id name : string) :
  matching two_labs partial_id name ↔
  name ∈ matches partial_id
           {[ "abc-111" := EntryDir (mkLabDir
                (Some (YamlFile (record "abc-111" "running" "172.30.1.0/24"))) None);
              "abc-222" := EntryDir (mkLabDir
                (Some (YamlFile (record "abc-222" "running" "172.30.2.0/24"))) None) ]}.
Proof.
  rewrite matching_matches. split.
  - by intros (entries & [= <-] & ?).
  - intros ?. by eexists.
Qed.

Lemma resolve_id_prefix_match_witness :
  (∃ msg, resolve_id "abc" two_labs = Raise (StateError msg) ∧
          ambiguous_message "abc" msg) ∧
  resolve_id "abc-1" two_labs = Ok "abc-111" ∧
  (∃ msg, resolve_id "xyz" two_labs = Raise (StateError msg) ∧
          not_found_message "xyz" msg).
Proof.
  destruct (resolve_id_prefix_match two_labs "abc") as (_ & Hamb & _).
  destruct (resolve_id_prefix_match two_labs "abc-1") as (_ & _ & _ & Hone).
  destruct (resolve_id_prefix_match two_labs "xyz") as (_ & _ & Hnone & _).
  split; [|split].
  - apply (Hamb "abc-111" "abc-222"); [done| |]; apply two_labs_matching.
    + change ("abc-111" ∈ ["abc-111"; "abc-222"]). by left.
    + change ("abc-222" ∈ ["abc-111"; "abc-222"]). right. by left.
  - apply Hone.
    + apply two_labs_matching. change ("abc-111" ∈ ["abc-111"]). by left.
    + intros b Hb%two_labs_matching. change (b ∈ ["abc-111"]) in Hb.
      by apply list_elem_of_singleton in Hb.
  - apply Hnone. intros a Ha%two_labs_matching. change (a ∈ []) in Ha.
    by apply elem_of_nil in Ha.
Defined.

Section claims.
Context `{Runtime}.

(** C5, as the code has it.  For a validated template whose services are
    mappings, [create] writes the record and [load] right after reads the
    same record back: its subnet, its template name and its lab id are the
    inputs, its status is [building], and its service list has one entry
    per declared service, in order, that summarises it: name, image and
    offset as declared, the declared platform or "linux", the declared
    access entries and ports, and no other field. *)
Theorem create_load_roundtrip (w : world) (lab_id template : string)
    (config : dict) (subnet : string) (items : list value) :
  Config.validate_config config = Ok () →
  dict_get config (VStr "services") = Some (VList items) →
  Forall (λ svc, ∃ d, svc = VDict d) items →
  lookup_entry w lab_id ≠ Some EntryFile →
  ∃ state w' infos,
    create lab_id template config subnet w = (Ok (VDict state), w') ∧
    load lab_id w' = (Ok (VDict state), w') ∧
    dict_get state (VStr "subnet") = Some (VStr subnet) ∧
    dict_get state (VStr "template") = Some (VStr template) ∧
    dict_get state (VStr "lab_id") = Some (VStr lab_id) ∧
    dict_get state (VStr "status") = Some (VStr "building") ∧
    dict_get state (VStr "services") = Some (VList infos) ∧
    Forall2 summarises items infos.
Proof.
  intros Hv Hs Hd Hne.
  destruct (mkdir_Ok lab_id w Hne) as (w1 & entries & d0 & Hmk & Hdd & He & _).
  destruct (mapM_svc_info items (validate_config_fields _ _ Hv Hs Hd))
    as (infos & Hinfos & Hall).
  unfold create. rewrite (bind_M_Ok _ _ _ _ _ Hmk). rewrite Hs.
  cbn [default py_iter].
  erewrite bind_M_Ok; [|reflexivity].
  erewrite bind_M_Ok; [|unfold lift; rewrite Hinfos; reflexivity].
  erewrite bind_M_Ok; [|reflexivity].
  erewrite bind_M_Ok; [|reflexivity].
  cbv zeta. erewrite bind_M_Ok; [|apply _write_Ok; [by simpl|done]].
  unfold mret, M_ret.
  eexists _, _, infos. split; [done|].
  split; [|by repeat split].
  eapply load_written; [done|apply lookup_insert_eq|done].
Qed.

End claims.

Lemma create_load_roundtrip_witness :
  ∃ state w' infos,
    create (H := Examples.example_runtime) "mal-9f86d081" "malware-lab"
           Examples.victim_config "172.30.1.0/24" Examples.empty_world
    = (Ok (VDict state), w') ∧
    load "mal-9f86d081" w' = (Ok (VDict state), w') ∧
    dict_get state (VStr "subnet") = Some (VStr "172.30.1.0/24") ∧
    dict_get state (VStr "template") = Some (VStr "malware-lab") ∧
    dict_get state (VStr "lab_id") = Some (VStr "mal-9f86d081") ∧
    dict_get state (VStr "status") = Some (VStr "building") ∧
    dict_get state (VStr "services") = Some (VList infos) ∧
    Forall2 summarises
      [VDict [(VStr "name", VStr "victim"); (VStr "image", VStr "ubuntu:22.04");
              (VStr "ip_offset", VInt 10)]] infos.
Proof.
  apply (create_load_roundtrip (H := Examples.example_runtime) Examples.empty_world
           "mal-9f86d081" "malware-lab" Examples.victim_config "172.30.1.0/24").
  - vm_compute. reflexivity.
  - reflexivity.
  - repeat constructor. by eexists.
  - vm_compute. discriminate.
Defined.

(** C5, as the claim has it.  The service list read back is not the
    declared one: for the service of the scenario, which declares no
    platform, the record holds the platform "linux". *)
Lemma roundtrip_services_differ :
  Config.validate_config (H := Examples.example_runtime) Examples.victim_config = Ok () ∧
  ∃ state w',
    create (H := Examples.example_runtime) "mal-9f86d081" "malware-lab"
           Examples.victim_config "172.30.1.0/24" Examples.empty_world
    = (Ok (VDict state), w') ∧
    load "mal-9f86d081" w' = (Ok (VDict state), w') ∧
    dict_get state (VStr "services")
    = Some (VList [VDict [(VStr "name", VStr "victim");
                          (VStr "image", VStr "ubuntu:22.04");
                          (VStr "ip_offset", VInt 10);
                          (VStr "platform", VStr "linux")]]) ∧
    dict_get state (VStr "services") ≠ dict_get Examples.victim_config (VStr "services").
Proof.
  split; [vm_compute; reflexivity|].
  eexists _, _. split; [vm_compute; reflexivity|].
  split; [vm_compute; reflexivity|].
  split; [reflexivity|]. vm_compute. discriminate.
Qed.

End LabStateClaims.

Module ControllerClaims.
Import LabState LabStateSpec LabStateFacts Controller ControllerFacts.
Section claims.
Context `{Runtime}.

(** C6, as the code has it.  On a lab whose record has the status
    [destroyed], [destroy] without [force] changes nothing, prints that
    the lab is already destroyed and raises nothing; with [force] it goes
    on, whatever [docker compose down] does, and removes the directory of
    the lab.  When no lab directory matches the identifier, [destroy]
    raises the not-found [StateError], with [force] or without, and leaves
    the world as it was. *)
Theorem destroy_destroyed_or_missing (w : world) (partial_id : string) (volumes : bool) :
  (∀ lab_id entries d rec,
      resolve_id partial_id w = Ok lab_id →
      data_dir w = Some entries → entries !! lab_id = Some (EntryDir d) →
      state_yml d = Some (YamlFile (VDict rec)) →
      dict_get rec (VStr "status") = Some (VStr "destroyed") →
      destroy partial_id volumes false w
      = (Ok (), printed w ("Lab " +:+ lab_id +:+
                           " is already destroyed. Use --force to clean up files.")) ∧
      ∃ w', destroy partial_id volumes true w = (Ok (), w') ∧
            data_dir w' = Some (base.delete lab_id entries) ∧
            lookup_entry w' lab_id = None) ∧
  ((∀ name, ¬ matching w partial_id name) →
   ∀ force, ∃ msg, destroy partial_id volumes force w = (Raise (StateError msg), w) ∧
                   not_found_message partial_id msg).
Proof.
  split.
  - intros lab_id entries d rec Hres Hd He Hs Hst.
    assert (∀ force, destroy partial_id volumes force w
      = (if negb force
         then console_print (Line ("Lab " +:+ lab_id +:+
                " is already destroyed. Use --force to clean up files."))
         else
           _ ← console_print (Line ("[bold]Destroying lab:[/bold] " +:+ lab_id));
           w ← get_world;
           _ ← (if compose_file_exists lab_id w
                then try_except
                       (DockerManager.down (compose_file_path lab_id)
                                           ("labforge-" +:+ lab_id) volumes)
                       is_DockerError
                       (λ e, if negb force then raise e
                             else console_print
                                    (Line ("[yellow]Warning:[/yellow] " +:+ exn_message e)))
                else mret ());
           _ ← update_status lab_id "destroyed";
           _ ← LabState.delete lab_id;
           console_print (Line ("[bold green]Lab " +:+ lab_id
                                +:+ " destroyed.[/bold green]"))) w) as Hrun.
    { intros force. unfold destroy.
      run_ok ltac:(reflexivity).
      run_ok ltac:(unfold lift; rewrite Hres; reflexivity).
      run_ok ltac:(eapply load_written; eassumption).
      run_ok ltac:(unfold lift, py_getitem; rewrite Hst; reflexivity).
      change (is_str (VStr "destroyed") "destroyed") with true.
      by destruct force. }
    split; [by rewrite Hrun|].
    rewrite Hrun. cbn [negb].
    destruct (console_print_Ok (Line ("[bold]Destroying lab:[/bold] " +:+ lab_id)) w)
      as (w1 & Hp1 & Hd1 & _).
    run_ok ltac:(exact Hp1). run_ok ltac:(reflexivity).
    assert (∃ w2, (if compose_file_exists lab_id w1
                   then try_except
                          (DockerManager.down (compose_file_path lab_id)
                                              ("labforge-" +:+ lab_id) volumes)
                          is_DockerError
                          (λ e, if negb true then raise e
                                else console_print
                                       (Line ("[yellow]Warning:[/yellow] " +:+ exn_message e)))
                   else mret ()) w1 = (Ok (), w2) ∧ data_dir w2 = data_dir w1)
      as (w2 & Hp2 & Hd2).
    { destruct (compose_file_exists lab_id w1); [apply down_forced|by eexists]. }
    run_ok ltac:(exact Hp2).
    destruct (update_status_Ok lab_id "destroyed" w2 entries d rec)
      as (w3 & Hp3 & Hd3 & _); [congruence|done|done|].
    run_ok ltac:(exact Hp3).
    destruct (delete_Ok lab_id w3 _ _ Hd3 (lookup_insert_eq _ _ _))
      as (w4 & Hp4 & Hd4 & _).
    run_ok ltac:(exact Hp4).
    rewrite delete_insert_eq in Hd4.
    eexists. split; [reflexivity|]. cbn [data_dir]. split; [done|].
    unfold lookup_entry. cbn [data_dir]. rewrite Hd4. simpl. apply lookup_delete_eq.
  - intros Hnone force.
    destruct (resolve_id_not_found partial_id w Hnone) as (msg & Hres & Hmsg).
    exists msg. split; [|done]. unfold destroy.
    run_ok ltac:(reflexivity).
    erewrite bind_M_Raise; [done|]. unfold lift. by rewrite Hres.
Qed.


End claims.

Lemma destroy_destroyed_or_missing_witness :
  destroy (H := Examples.example_runtime) "old" false false leftovers
  = (Ok (), printed leftovers
              ("Lab " +:+ "old-5e6f7a8b" +:+
               " is already destroyed. Use --force to clean up files.")) ∧
  ∃ w', destroy (H := Examples.example_runtime) "old" false true leftovers = (Ok (), w') ∧
        data_dir w' = Some {[ "tmp-00000000" :=
                                EntryDir (mkLabDir None (Some (YamlFile (VDict [])))) ]} ∧
        lookup_entry w' "old-5e6f7a8b" = None.
Proof.
  destruct (proj1 (destroy_destroyed_or_missing (H := Examples.example_runtime)
                     leftovers "old" false)
              "old-5e6f7a8b" _ _ _ eq_refl eq_refl eq_refl eq_refl eq_refl)
    as (Hno & w' & Hforce & Hd & Hl).
  split; [exact Hno|]. exists w'. split; [exact Hforce|]. split; [|exact Hl].
  rewrite Hd. reflexivity.
Defined.

(** C6, as the claim has it.  On an identifier no lab matches, [destroy]
    raises [StateError] without [force], and raises it with [force] too,
    leaving a directory that holds no record where it is. *)
Lemma destroy_missing_raises :
  destroy (H := Examples.example_runtime) "tmp" false false leftovers
  = (Raise (StateError "No lab found matching 'tmp'"), leftovers) ∧
  destroy (H := Examples.example_runtime) "tmp" false true leftovers
  = (Raise (StateError "No lab found matching 'tmp'"), leftovers) ∧
  is_Some (lookup_entry leftovers "tmp-00000000") ∧
  destroy (H := Examples.example_runtime) "gone-1234" false false Examples.empty_world
  = (Raise (StateError "No lab found matching 'gone-1234'"), Examples.empty_world).
Proof.
  split; [vm_compute; reflexivity|]. split; [vm_compute; reflexivity|].
  split; [vm_compute; eauto|]. vm_compute. reflexivity.
Qed.



End ControllerClaims.

(** ** More on the allocator *)

Module NetworkMore.
Import Network NetworkSpec NetworkFacts.

(** [gateway_ip] and offset 1.  On a subnet of more than one address
    (prefix length below 32) [gateway_ip] returns what [compute_ip] returns
    for offset 1, the address after the network address.  It makes no
    containment check of its own: on a single-address subnet it still
    returns the address after the network address, which is outside the
    subnet, where [compute_ip] raises [NetworkError]. *)
Theorem gateway_ip_is_offset_one_unchecked :
  (∀ subnet net,
      IPv4Network_of_string subnet = Some net → prefixlen net < 32 →
      gateway_ip subnet = Ok (address_to_string (network_address net + 1)) ∧
      compute_ip subnet 1 = gateway_ip subnet) ∧
  (∀ subnet net,
      IPv4Network_of_string subnet = Some net → prefixlen net = 32 →
      network_address net + 1 < 2 ^ 32 →
      gateway_ip subnet = Ok (address_to_string (network_address net + 1)) ∧
      contains net (network_address net + 1) = false ∧
      compute_ip subnet 1
      = Raise (NetworkError ("IP offset 1 is out of range for subnet " +:+ subnet))).
Proof.
  split.
  - intros subnet net Hparse Hp.
    pose proof (IPv4Network_of_string_valid _ _ Hparse) as Hv.
    pose proof Hv as (Ha & Hpl & _).
    pose proof (valid_aligned _ Hv) as Hal.
    pose proof (broadcast_address_eq _ Hv) as Hb.
    assert (2 ≤ 2 ^ (32 - prefixlen net)) as H2.
    { change 2 with (2 ^ 1) at 1. apply Z.pow_le_mono_r; lia. }
    assert (network_address net + 2 ^ (32 - prefixlen net) ≤ 2 ^ 32) as Hfit.
    { apply Z.mod_divide in Hal as [q Hq]; [|lia].
      assert (2 ^ 32 = 2 ^ prefixlen net * 2 ^ (32 - prefixlen net)) as Hsplit.
      { rewrite <-Z.pow_add_r by lia. f_equal. lia. }
      assert (q < 2 ^ prefixlen net) by nia.
      nia. }
    assert (gateway_ip subnet = Ok (address_to_string (network_address net + 1))) as Hg.
    { unfold gateway_ip. rewrite Hparse. simpl. unfold address_add.
      destruct (Z.leb_spec 0 (network_address net + 1)); [|lia].
      destruct (Z.leb_spec (network_address net + 1) ALL_ONES) as [_|Hgt];
        [done|unfold ALL_ONES in Hgt; lia]. }
    split; [done|]. rewrite Hg.
    unfold compute_ip, compute_ip_in. rewrite Hparse. simpl. unfold address_add.
    destruct (Z.leb_spec 0 (network_address net + 1)); [|lia].
    destruct (Z.leb_spec (network_address net + 1) ALL_ONES) as [_|Hgt];
      [|unfold ALL_ONES in Hgt; lia].
    simpl.
    assert (contains net (network_address net + 1) = true) as ->; [|done].
    apply contains_range; [done|lia|lia].
  - intros subnet net Hparse Hp Hlt.
    pose proof (IPv4Network_of_string_valid _ _ Hparse) as Hv.
    pose proof Hv as (Ha & Hpl & _).
    pose proof (broadcast_address_eq _ Hv) as Hb.
    rewrite Hp in Hb. change (2 ^ (32 - 32)) with 1 in Hb.
    assert (contains net (network_address net + 1) = false) as Hc.
    { destruct (contains net (network_address net + 1)) eqn:Hc; [|done].
      apply contains_range in Hc; [lia|done|lia]. }
    split; [|split; [done|]].
    + unfold gateway_ip. rewrite Hparse. simpl. unfold address_add.
      destruct (Z.leb_spec 0 (network_address net + 1)); [|lia].
      destruct (Z.leb_spec (network_address net + 1) ALL_ONES) as [_|Hgt];
        [done|unfold ALL_ONES in Hgt; lia].
    + unfold compute_ip, compute_ip_in. rewrite Hparse. simpl. unfold address_add.
      destruct (Z.leb_spec 0 (network_address net + 1)); [|lia].
      destruct (Z.leb_spec (network_address net + 1) ALL_ONES) as [_|Hgt];
        [|unfold ALL_ONES in Hgt; lia].
      simpl. by rewrite Hc.
Qed.

Lemma gateway_ip_is_offset_one_unchecked_witness :
  gateway_ip "172.30.7.0/24" = Ok "172.30.7.1" ∧
  compute_ip "172.30.7.0/24" 1 = Ok "172.30.7.1" ∧
  gateway_ip "10.0.0.5/32" = Ok "10.0.0.6" ∧
  compute_ip "10.0.0.5/32" 1
  = Raise (NetworkError "IP offset 1 is out of range for subnet 10.0.0.5/32").
Proof.
  destruct gateway_ip_is_offset_one_unchecked as [Hmany Hone].
  destruct (Hmany "172.30.7.0/24" (block 7) eq_refl ltac:(done)) as [Hg Hc].
  destruct (Hone "10.0.0.5/32" (mkNet 167772165 32) eq_refl eq_refl ltac:(done))
    as (Hg' & _ & Hc').
  split; [exact Hg|]. split; [by rewrite Hc|]. split; [exact Hg'|exact Hc'].
Defined.

(** What [allocate] returns.  A returned subnet is the text of a block
    172.30.k.0/24 with k from 1 to 255 that was not in the used set; the
    text parses back to that block; the used set afterwards is the one
    before with that block added; and a second [allocate] on the updated
    set never returns the same subnet. *)
Theorem allocate_marks_block_used (used used' : gset IPv4Network) (s : string) :
  allocate used = Ok (s, used') →
  ∃ k, 1 ≤ k ≤ 255 ∧ s = network_to_string (block k) ∧
       (block k ∉ used) ∧ used' = used ∪ {[ block k ]} ∧
       IPv4Network_of_string s = Some (block k) ∧
       ∀ s' used'', allocate used' = Ok (s', used'') → s' ≠ s.
Proof.
  intros Halloc.
  destruct (allocate_Ok_block _ _ _ Halloc) as (k & Hk & Hs & Hnin & Hu & Hparse).
  exists k.
  split; [exact Hk|]. split; [exact Hs|]. split; [exact Hnin|].
  split; [exact Hu|]. split; [exact Hparse|].
  intros s' used'' Halloc' Hs'.
  destruct (allocate_Ok_block _ _ _ Halloc') as (k' & _ & _ & Hnin' & _ & Hparse').
  rewrite Hs', Hparse in Hparse'. apply (inj Some) in Hparse'.
  apply Hnin'. rewrite Hu, <-Hparse'. apply elem_of_union. right.
  by apply elem_of_singleton.
Qed.

Lemma allocate_marks_block_used_witness :
  ∃ k, 1 ≤ k ≤ 255 ∧ "172.30.2.0/24" = network_to_string (block k) ∧
       (block k ∉ ({[ block 1 ]} : gset IPv4Network)) ∧
       ({[ block 1 ]} ∪ {[ block 2 ]} : gset IPv4Network) = {[ block 1 ]} ∪ {[ block k ]} ∧
       IPv4Network_of_string "172.30.2.0/24" = Some (block k) ∧
       ∀ s' used'', allocate ({[ block 1 ]} ∪ {[ block 2 ]}) = Ok (s', used'') →
                    s' ≠ "172.30.2.0/24".
Proof.
  apply (allocate_marks_block_used {[ block 1 ]} ({[ block 1 ]} ∪ {[ block 2 ]})
           "172.30.2.0/24").
  vm_compute. reflexivity.
Defined.

(** The used set [__init__] builds depends only on which entries the list
    holds: two lists with the same entries, in any order and with any
    repetition, give the same set. *)
Theorem init_same_entries (l1 l2 : list value) :
  (∀ v, v ∈ l1 ↔ v ∈ l2) → init l1 = init l2.
Proof.
  intros Hsame. apply set_eq. intros net. rewrite !elem_of_init.
  split; intros (v & Hv & Hnet); exists v; split; try done; by apply Hsame.
Qed.

Lemma init_same_entries_witness :
  init [VStr "172.30.1.0/24"; VStr "172.30.2.0/24"; VStr "172.30.1.0/24"]
  = init [VStr "172.30.2.0/24"; VStr "172.30.1.0/24"].
Proof.
  apply init_same_entries. intros v. rewrite !elem_of_cons, !elem_of_nil. tauto.
Defined.

End NetworkMore.
